(** * ObjectReconstruction3D: the reconstruction engine of [src/model.py]

    A shallow embedding of [Model.initial_reconstruction] (seed
    triangulation) and [Model.next_refinement_step] (single-step carving),
    and the properties of the engine stated by the specification.

    The engine computes with Python floats through three collaborators:
    numpy ([np.array] arithmetic, [np.linalg.lstsq], [np.allclose]), raylib
    ([rl.Vector3], [rl.vector3_cross_product], [rl.vector3_equals]) and the
    repository's own [utils] module.  The control flow, the list handling
    and the exceptions of [model.py] are embedded over an arbitrary
    implementation of those collaborators (class [Backend]); the numeric
    facts are stated over the instance [Exact], where scalars are exact
    rationals. *)

From Stdlib Require Import List Bool Arith Lia QArith Qabs Qminmax String.
From Stdlib Require Import Permutation Lqa.
Import ListNotations.

Local Open Scope nat_scope.

(** ** Data *)

(** [rl.Vector3]: a struct with the three fields [x], [y], [z]. *)
Record Vector3 (F : Type) : Type := mkVector3 { x : F; y : F; z : F }.
Arguments mkVector3 {F} _ _ _.
Arguments x {F} _.
Arguments y {F} _.
Arguments z {F} _.

(** A numpy array of shape (3,), as built by [np.array([p.x, p.y, p.z])]. *)
Definition ndarray3 (F : Type) : Type := (F * F * F)%type.

Module View.

(** Modelled from the spec: the class [View] (view.py) is absent from the
    repository's sources; the specification gives its contract as a camera
    frame ([position], [vx], [vy], [vz]) and the silhouette boundary
    [vertices], an ordered sequence of points in world space.  The engine
    reads [vy] and [vertices] only. *)
Record t (F : Type) : Type := mk {
  position : Vector3 F;
  vx : Vector3 F;
  vy : Vector3 F;
  vz : Vector3 F;
  vertices : list (Vector3 F)
}.
Arguments mk {F} _ _ _ _ _.
Arguments position {F} _.
Arguments vx {F} _.
Arguments vy {F} _.
Arguments vz {F} _.
Arguments vertices {F} _.

End View.

(** ** The collaborators of the engine *)

(** Everything [model.py] calls but does not define.  [lstsq] answers
    [None] where [np.linalg.lstsq] raises [LinAlgError], the one exception
    the seed loop catches. *)
Class Backend : Type := {
  scalar : Type;
  (* Python: the literal [0] and the comparison [a == b] *)
  zero : scalar;
  feq : scalar -> scalar -> bool;
  (* numpy, element by element: [a + b], [a - b], [t * a], [-a] *)
  fadd : scalar -> scalar -> scalar;
  fsub : scalar -> scalar -> scalar;
  fmul : scalar -> scalar -> scalar;
  fneg : scalar -> scalar;
  (* [np.linalg.lstsq(a, b, rcond=None)], [a] given by its two columns *)
  lstsq : ndarray3 scalar * ndarray3 scalar -> ndarray3 scalar
          -> option (scalar * scalar);
  (* [np.allclose(a, b)] *)
  allclose : ndarray3 scalar -> ndarray3 scalar -> bool;
  (* [rl.Vector3(x, y, z)]: the contents of the struct that is built *)
  Vector3_new : scalar -> scalar -> scalar -> Vector3 scalar;
  (* [rl.vector3_cross_product(v1, v2)] *)
  vector3_cross_product : Vector3 scalar -> Vector3 scalar -> Vector3 scalar;
  (* [rl.vector3_equals(p, q)] *)
  vector3_equals : Vector3 scalar -> Vector3 scalar -> bool;
  (* [utils.calculate_plane_d(px, py, pz, a, b, c)] *)
  calculate_plane_d : scalar -> scalar -> scalar ->
                      scalar -> scalar -> scalar -> scalar;
  (* [utils.intersect_plane_line(a, b, c, d, px, py, pz)] *)
  intersect_plane_line : scalar -> scalar -> scalar -> scalar ->
                         scalar -> scalar -> scalar -> Vector3 scalar
}.

(** ** Python values, exceptions and the store *)

(** A reference to a [Vector3] object of the Python heap.  The elements of
    [Model.vertices] are references: [list.remove] compares them by
    identity (two cffi structs are equal when they are the same object). *)
Definition ref : Type := nat.

(** The exceptions that leave the two methods. *)
Inductive exn : Type :=
| IndexError   (* [l[i]] out of range *)
| ValueError.  (* [l.remove(v)], [v] not in [l] *)

Inductive outcome (A : Type) : Type :=
| Return (a : A)
| Raise (e : exn).
Arguments Return {A} a.
Arguments Raise {A} e.

(** [l[i]] for [0 <= i]. *)
Definition index {A : Type} (l : list A) (i : nat) : outcome A :=
  match nth_error l i with
  | Some a => Return a
  | None => Raise IndexError
  end.

(** [l.remove(v)] on a list of references: drops the first occurrence of
    the object [v]; [None] when it has none ([ValueError]). *)
Fixpoint list_remove (v : ref) (l : list ref) : option (list ref) :=
  match l with
  | [] => None
  | e :: l' =>
      if Nat.eqb e v then Some l'
      else match list_remove v l' with
           | Some r => Some (e :: r)
           | None => None
           end
  end.

Section Engine.
Context {B : Backend}.

(** The attributes of a [Model] instance. *)
Record Model : Type := mkModel {
  views : list (View.t scalar);
  vertices : list ref;
  next_view : nat
}.

(** The engine together with what it acts on: the objects it has allocated
    ([store], in use below the break [brk]) and what it has printed. *)
Record World : Type := mkWorld {
  self : Model;
  store : ref -> Vector3 scalar;
  brk : ref;
  stdout : list string
}.

(** [Model.__init__], once the views are loaded: no vertex yet, cursor at
    0, nothing allocated, nothing printed. *)
Definition init (vs : list (View.t scalar)) : World :=
  {| self := {| views := vs; vertices := []; next_view := 0 |};
     store := fun _ => mkVector3 zero zero zero;
     brk := 0;
     stdout := [] |}.

(** *** A state and exception monad for method bodies *)

Definition Py (A : Type) : Type := World -> World * outcome A.

Definition ret {A : Type} (a : A) : Py A := fun w => (w, Return a).

Definition bind {A C : Type} (c : Py A) (k : A -> Py C) : Py C :=
  fun w => match c w with
           | (w', Return a) => k a w'
           | (w', Raise e) => (w', Raise e)
           end.

Definition lift {A : Type} (o : outcome A) : Py A := fun w => (w, o).

Definition get : Py World := fun w => (w, Return w).

Definition set_self (m : Model) : Py unit :=
  fun w => ({| self := m; store := store w; brk := brk w;
               stdout := stdout w |}, Return tt).

(** [print(s)] *)
Definition print (s : string) : Py unit :=
  fun w => ({| self := self w; store := store w; brk := brk w;
               stdout := stdout w ++ [s] |}, Return tt).

(** A fresh [Vector3] object holding [v]; answers its reference. *)
Definition alloc (v : Vector3 scalar) : Py ref :=
  fun w => ({| self := self w;
               store := fun r => if Nat.eqb r (brk w) then v else store w r;
               brk := S (brk w);
               stdout := stdout w |}, Return (brk w)).

(** [for a in l: body(a)] *)
Fixpoint for_each {A : Type} (l : list A) (body : A -> Py unit) : Py unit :=
  match l with
  | [] => ret tt
  | a :: l' => bind (body a) (fun _ => for_each l' body)
  end.

End Engine.

Notation "a <- c ;; k" := (bind c (fun a => k))
  (at level 61, c at next level, right associativity).

(** ** The two methods of the engine *)

Section Methods.
Context {B : Backend}.

(** [np.array([v.x, v.y, v.z])] *)
Definition np_array (v : Vector3 scalar) : ndarray3 scalar := (x v, y v, z v).

(** numpy arithmetic on arrays of shape (3,): [-a], [a + b], [a - b] and
    the product [t * a] of an array by a scalar. *)
Definition arr_neg (a : ndarray3 scalar) : ndarray3 scalar :=
  let '(a0, a1, a2) := a in (fneg a0, fneg a1, fneg a2).

Definition arr_add (a b : ndarray3 scalar) : ndarray3 scalar :=
  let '(a0, a1, a2) := a in
  let '(b0, b1, b2) := b in (fadd a0 b0, fadd a1 b1, fadd a2 b2).

Definition arr_sub (a b : ndarray3 scalar) : ndarray3 scalar :=
  let '(a0, a1, a2) := a in
  let '(b0, b1, b2) := b in (fsub a0 b0, fsub a1 b1, fsub a2 b2).

Definition arr_scale (t : scalar) (a : ndarray3 scalar) : ndarray3 scalar :=
  let '(a0, a1, a2) := a in (fmul t a0, fmul t a1, fmul t a2).

(** [self.vertices.insert(0, r)] *)
Definition vertices_insert0 (r : ref) : Py unit :=
  w <- get ;;
  set_self {| views := views (self w);
              vertices := r :: vertices (self w);
              next_view := next_view (self w) |}.

(** [self.vertices.remove(point)] *)
Definition vertices_remove (point : ref) : Py unit :=
  w <- get ;;
  match list_remove point (vertices (self w)) with
  | Some l => set_self {| views := views (self w);
                          vertices := l;
                          next_view := next_view (self w) |}
  | None => lift (Raise ValueError)
  end.

(** [self.next_view = n] *)
Definition set_next_view (n : nat) : Py unit :=
  w <- get ;;
  set_self {| views := views (self w);
              vertices := vertices (self w);
              next_view := n |}.

(** The two points computed for the pair [(p0, p1)] in the body of the
    inner loop of [initial_reconstruction] (lines 102-109): the system
    [a . (t, s) = b] with [a = np.array([d0, -d1]).T] and [b = p1 - p0] is
    handed to [lstsq]; [None] when it raises [LinAlgError]. *)
Definition closest_points (d0 d1 p0 p1 : ndarray3 scalar)
  : option (ndarray3 scalar * ndarray3 scalar) :=
  let a := (d0, arr_neg d1) in
  let b := arr_sub p1 p0 in
  match lstsq a b with
  | Some (t, s) =>
      let p_inter1 := arr_add p0 (arr_scale t d0) in
      let p_inter2 := arr_add p1 (arr_scale s d1) in
      Some (p_inter1, p_inter2)
  | None => None
  end.

(** The body of the inner loop (lines 101-116), for one pair. *)
Definition try_pair (d0 d1 p0 : ndarray3 scalar) (p1 : Vector3 scalar)
  : Py unit :=
  let p1 := np_array p1 in
  match closest_points d0 d1 p0 p1 with
  | Some (p_inter1, p_inter2) =>
      if allclose p_inter1 p_inter2 then
        let '(c0, c1, c2) := p_inter1 in
        r <- alloc (Vector3_new c0 c1 c2) ;;
        vertices_insert0 r
      else ret tt                           (* continue *)
  | None => ret tt                          (* except LinAlgError: continue *)
  end.

(** The guard of line 85 on [c = vector3_cross_product(view0.vy, view1.vy)]. *)
Definition parallel_axes (view0 view1 : View.t scalar) : bool :=
  let c := vector3_cross_product (View.vy view0) (View.vy view1) in
  feq (x c) zero && feq (y c) zero && feq (z c) zero.

(** [Model.initial_reconstruction] *)
Definition initial_reconstruction : Py unit :=
  w <- get ;;
  view0 <- lift (index (views (self w)) 0) ;;
  view1 <- lift (index (views (self w)) 1) ;;
  if parallel_axes view0 view1 then
    print "Both views have paralell vy vectors."%string
  else
    u <- set_next_view 2 ;;
    let d0 := np_array (View.vy view0) in
    let d1 := np_array (View.vy view1) in
    for_each (View.vertices view0) (fun p0 =>
      let p0 := np_array p0 in
      for_each (View.vertices view1) (fun p1 => try_pair d0 d1 p0 p1)).

(** The projection of [point] on the plane of [view] that the carving loop
    computes (lines 132-150), given the reference point of the plane. *)
Definition plane_intersec (view : View.t scalar)
    (plane_point point : Vector3 scalar) : Vector3 scalar :=
  let plane_d :=
    calculate_plane_d (x plane_point) (y plane_point) (z plane_point)
      (x (View.vy view)) (y (View.vy view)) (z (View.vy view)) in
  intersect_plane_line
    (x (View.vy view)) (y (View.vy view)) (z (View.vy view)) plane_d
    (x point) (y point) (z point).

(** The test of line 154, without its negation: the projection of [point]
    equals some vertex of the silhouette of [view]. *)
Definition visible (view : View.t scalar)
    (plane_point point : Vector3 scalar) : bool :=
  existsb (fun view_point =>
             vector3_equals (plane_intersec view plane_point point) view_point)
          (View.vertices view).

(** The scan of lines 141-155: the points to remove, last marked first. *)
Definition scan (view : View.t scalar) (plane_point : Vector3 scalar)
    (st : ref -> Vector3 scalar) (l : list ref) : list ref :=
  fold_left (fun points_to_remove point =>
               if negb (visible view plane_point (st point))
               then point :: points_to_remove
               else points_to_remove)
            l [].

(** [Model.next_refinement_step] *)
Definition next_refinement_step : Py bool :=
  w <- get ;;
  if List.length (views (self w)) <=? next_view (self w) then ret false
  else
    view <- lift (index (views (self w)) (next_view (self w))) ;;
    plane_point <- lift (index (View.vertices view) 0) ;;
    let points_to_remove :=
      scan view plane_point (store w) (vertices (self w)) in
    u <- for_each points_to_remove vertices_remove ;;
    w' <- get ;;
    u <- set_next_view (S (next_view (self w'))) ;;
    ret true.

End Methods.

(** ** The collaborators in exact arithmetic *)

(** Scalars are rationals and every operation is exact: what the float
    code computes when no rounding occurs.  This instance serves at
    sample inputs, and for two facts that rounding leaves as they are:
    the null cross product of identical or opposite axes, and the
    rejection of two parallel rays one unit apart.  The sample inputs are
    dyadic and small, so that the float computation is exact on them,
    but for the oblique axis (3/5, 0, 4/5), where the comparisons that
    decide the outcome have margins far above the rounding of floats.
    The exact solve tests the rank exactly, where numpy cuts the singular
    values below a threshold: the two agree on the matrices used here,
    of rank one exactly or with orthogonal columns. *)
Module Exact.

Local Open Scope Q_scope.

(** [Vector3CrossProduct] of raymath.h *)
Definition cross_product (v1 v2 : Vector3 Q) : Vector3 Q :=
  mkVector3 (y v1 * z v2 - z v1 * y v2)
            (z v1 * x v2 - x v1 * z v2)
            (x v1 * y v2 - y v1 * x v2).

(** [EPSILON] of raymath.h: 0.000001 *)
Definition EPSILON : Q := 1 # 1000000.

(** One component of [Vector3Equals] of raymath.h:
    [fabsf(p - q) <= EPSILON*fmaxf(1.0f, fmaxf(fabsf(p), fabsf(q)))]. *)
Definition component_equals (p q : Q) : bool :=
  Qle_bool (Qabs (p - q)) (EPSILON * Qmax 1 (Qmax (Qabs p) (Qabs q))).

Definition equals (p q : Vector3 Q) : bool :=
  component_equals (x p) (x q) &&
  component_equals (y p) (y q) &&
  component_equals (z p) (z q).

(** The defaults of [np.allclose]: [rtol=1e-05], [atol=1e-08]. *)
Definition rtol : Q := 1 # 100000.
Definition atol : Q := 1 # 100000000.

(** One component of [np.allclose(a, b)]:
    [absolute(a - b) <= atol + rtol * absolute(b)]. *)
Definition isclose (a b : Q) : bool :=
  Qle_bool (Qabs (a - b)) (atol + rtol * Qabs b).

Definition all_close (a b : ndarray3 Q) : bool :=
  let '(a0, a1, a2) := a in
  let '(b0, b1, b2) := b in
  isclose a0 b0 && isclose a1 b1 && isclose a2 b2.

Definition dot (a b : ndarray3 Q) : Q :=
  let '(a0, a1, a2) := a in
  let '(b0, b1, b2) := b in a0 * b0 + a1 * b1 + a2 * b2.

(** [np.linalg.lstsq(a, b, rcond=None)] for the 3x2 matrix [a] of columns
    [c0], [c1]: the solution of least norm among those that minimise
    [|a . (t, s) - b|].  With independent columns it is the solution of the
    normal equations; with a matrix of rank one it is [a^T b / |a|^2]
    (Frobenius norm), and [(0, 0)] for the null matrix.  The exact solve
    never fails. *)
Definition least_squares (a : ndarray3 Q * ndarray3 Q) (b : ndarray3 Q)
  : option (Q * Q) :=
  let '(c0, c1) := a in
  let g00 := dot c0 c0 in
  let g01 := dot c0 c1 in
  let g11 := dot c1 c1 in
  let r0 := dot c0 b in
  let r1 := dot c1 b in
  let det := g00 * g11 - g01 * g01 in
  if Qeq_bool det 0 then
    let fro := g00 + g11 in
    if Qeq_bool fro 0 then Some (0, 0)
    else Some (r0 / fro, r1 / fro)
  else Some ((r0 * g11 - r1 * g01) / det, (g00 * r1 - g01 * r0) / det).

(** Modelled from the spec: [utils.calculate_plane_d] (utils.py is absent
    from the repository's sources).  Given a point of a plane and the
    normal [(a, b, c)] of the plane, the [D] for which
    [a*x + b*y + c*z + D = 0] holds at the point. *)
Definition plane_d (px py pz a b c : Q) : Q :=
  - (a * px + b * py + c * pz).

(** Modelled from the spec: [utils.intersect_plane_line] (utils.py is
    absent from the repository's sources).  Where the line through the
    point [(px, py, pz)] with direction [(a, b, c)] meets the plane
    [a*x + b*y + c*z + d = 0]:
    [line_point - normal * ((normal . line_point + D) / |normal|^2)]. *)
Definition plane_line (a b c d px py pz : Q) : Vector3 Q :=
  let k := (a * px + b * py + c * pz + d) / (a * a + b * b + c * c) in
  mkVector3 (px - a * k) (py - b * k) (pz - c * k).

(** The square of the distance between two points. *)
Definition dist2 (a b : ndarray3 Q) : Q :=
  let '(a0, a1, a2) := a in
  let '(b0, b1, b2) := b in
  (a0 - b0) * (a0 - b0) + (a1 - b1) * (a1 - b1) + (a2 - b2) * (a2 - b2).

(** [v] is [k] times [u]: the same direction for [k = 1], the opposite one
    for [k = -1]. *)
Definition scaled (k : Q) (u v : Vector3 Q) : Prop :=
  x v == k * x u /\ y v == k * y u /\ z v == k * z u.

#[export] Instance backend : Backend := {|
  scalar := Q;
  zero := 0;
  feq := Qeq_bool;
  fadd := Qplus;
  fsub := Qminus;
  fmul := Qmult;
  fneg := Qopp;
  lstsq := least_squares;
  allclose := all_close;
  Vector3_new := mkVector3;
  vector3_cross_product := cross_product;
  vector3_equals := equals;
  calculate_plane_d := plane_d;
  intersect_plane_line := plane_line
|}.

End Exact.

(** ** Notions used to state the properties *)

Section Notions.
Context {B : Backend}.

(** The world [w] with another list of vertices, or another cursor. *)
Definition with_vertices (w : World) (l : list ref) : World :=
  {| self := {| views := views (self w);
                vertices := l;
                next_view := next_view (self w) |};
     store := store w; brk := brk w; stdout := stdout w |}.

Definition with_next_view (w : World) (n : nat) : World :=
  {| self := {| views := views (self w);
                vertices := vertices (self w);
                next_view := n |};
     store := store w; brk := brk w; stdout := stdout w |}.

(** The points of the cloud: the contents of the objects in [vertices]. *)
Definition cloud (w : World) : list (Vector3 scalar) :=
  map (store w) (vertices (self w)).

(** A driver that calls [next_refinement_step] [n] times, whatever the
    calls answer. *)
Fixpoint calls (n : nat) (w : World) : World :=
  match n with
  | 0 => w
  | S n' => calls n' (fst (next_refinement_step w))
  end.

(** [k] carving steps in a row that all return [True]. *)
Fixpoint carve (k : nat) (w : World) : option World :=
  match k with
  | 0 => Some w
  | S k' =>
      match next_refinement_step w with
      | (w', Return true) => carve k' w'
      | _ => None
      end
  end.

(** A point is consistent with a view when its projection on the plane of
    the view (through the first vertex of the silhouette, normal to [vy])
    equals some vertex of the silhouette. *)
Definition consistent (view : View.t scalar) (point : Vector3 scalar) : bool :=
  match View.vertices view with
  | [] => false
  | plane_point :: _ => visible view plane_point point
  end.

(** What the seed is specified to insert for the pair [(p0, p1)]: [q0] when
    the solve gives [(t, s)] and [q0 = p0 + t*d0] is close to
    [q1 = p1 + s*d1], nothing otherwise. *)
Definition accepted (d0 d1 : ndarray3 scalar) (p0 p1 : Vector3 scalar)
  : list (Vector3 scalar) :=
  match lstsq (d0, arr_neg d1) (arr_sub (np_array p1) (np_array p0)) with
  | Some (t, s) =>
      let q0 := arr_add (np_array p0) (arr_scale t d0) in
      let q1 := arr_add (np_array p1) (arr_scale s d1) in
      if allclose q0 q1
      then [Vector3_new (fst (fst q0)) (snd (fst q0)) (snd q0)]
      else []
  | None => []
  end.

(** Line 112: a fresh [Vector3] holding [q] is put in front of the cloud. *)
Definition push (w : World) (q : Vector3 scalar) : World :=
  {| self := {| views := views (self w);
                vertices := brk w :: vertices (self w);
                next_view := next_view (self w) |};
     store := fun r => if Nat.eqb r (brk w) then q else store w r;
     brk := S (brk w);
     stdout := stdout w |}.

(** The points specified for two views: every pair, [p0] outermost. *)
Definition triangulated (view0 view1 : View.t scalar)
  : list (Vector3 scalar) :=
  flat_map (fun p0 =>
    flat_map (fun p1 =>
      accepted (np_array (View.vy view0)) (np_array (View.vy view1)) p0 p1)
      (View.vertices view1))
    (View.vertices view0).

End Notions.

(** ** Sample scenes, in exact arithmetic *)

Module Scene.

Local Open Scope Q_scope.

(** Scalars, points and views of the exact collaborators. *)
Definition num : Type := @scalar Exact.backend.

Definition V (a b c : Q) : Vector3 num := mkVector3 a b c.

(** A camera on the negative y axis looking along +y, and one on the
    negative x axis looking along +x; their image planes are [y = -1] and
    [x = -1]. *)
Definition front (silhouette : list (Vector3 num)) : View.t num :=
  View.mk (V 0 (-1) 0) (V 1 0 0) (V 0 1 0) (V 0 0 1) silhouette.

Definition side (silhouette : list (Vector3 num)) : View.t num :=
  View.mk (V (-1) 0 0) (V 0 (-1) 0) (V 1 0 0) (V 0 0 1) silhouette.

(** A camera above, looking along -z; image plane [z = 1]. *)
Definition top (silhouette : list (Vector3 num)) : View.t num :=
  View.mk (V 0 0 1) (V 1 0 0) (V 0 0 (-1)) (V 0 1 0) silhouette.

Definition engine (vs : list (View.t num)) : @World Exact.backend :=
  @init Exact.backend vs.

Definition seed (w : @World Exact.backend) : @World Exact.backend :=
  fst (@initial_reconstruction Exact.backend w).

Definition step (w : @World Exact.backend) : @World Exact.backend :=
  fst (@next_refinement_step Exact.backend w).

(** Three views: the unit square seen from the front and from the side,
    and from above a silhouette that lacks the corner (1, 1). *)
Definition square : @World Exact.backend :=
  engine [front [V 0 (-1) 0; V 1 (-1) 0];
          side [V (-1) 0 0; V (-1) 1 0];
          top [V 0 0 1; V 1 0 1; V 0 1 1]].

(** Two skew rays, then a view whose silhouette is empty. *)
Definition blank_third : @World Exact.backend :=
  engine [front [V 0 (-1) 5]; side [V (-1) 0 7]; top []].

(** Two skew rays, then a view with one vertex. *)
Definition skew_rays : @World Exact.backend :=
  engine [front [V 0 (-1) 5]; side [V (-1) 0 7]; top [V 0 0 1]].

(** A seeded cloud of one point, then a view whose silhouette is empty. *)
Definition blank_top : @World Exact.backend :=
  engine [front [V 0 (-1) 0]; side [V (-1) 0 0]; top []].

(** The rays [(0,0,0) + t*(0,1,0)] and [(1,1,0) + s*(0,1,0)]: two views
    with the same optical axis, one boundary vertex each. *)
Definition ray0 : View.t num :=
  View.mk (V 0 0 0) (V 1 0 0) (V 0 1 0) (V 0 0 1) [V 0 0 0].

Definition ray1 : View.t num :=
  View.mk (V 1 1 0) (V 1 0 0) (V 0 1 0) (V 0 0 1) [V 1 1 0].

Definition parallel_rays : @World Exact.backend := engine [ray0; ray1].

(** Their common direction and their two origins. *)
Definition d : ndarray3 num := (0, 1, 0).
Definition p0 : Vector3 num := V 0 0 0.
Definition p1 : Vector3 num := V 1 1 0.

(** The message of line 86. *)
Definition message : string := "Both views have paralell vy vectors.".

End Scene.

(** ** Further notions: pending views, well-formed stores, reachable worlds *)

Section MoreNotions.
Context {B : Backend}.

(** The views the cursor has not reached. *)
Definition pending (w : World) : list (View.t scalar) :=
  skipn (next_view (self w)) (views (self w)).

(** A point is consistent with every view of a list. *)
Definition consistent_all (vs : list (View.t scalar))
    (point : Vector3 scalar) : bool :=
  forallb (fun view => consistent view point) vs.

(** What a driver finds once it has called the step until it returned
    [False], when no step failed: the vertices consistent with all the
    pending views, and the cursor past them. *)
Definition carved (w : World) : World :=
  with_next_view
    (with_vertices w
       (filter (fun r => consistent_all (pending w) (store w r))
               (vertices (self w))))
    (next_view (self w) + List.length (pending w)).

(** The objects of the cloud are pairwise distinct and all allocated. *)
Definition well_formed (w : World) : Prop :=
  NoDup (vertices (self w)) /\
  Forall (fun r => r < brk w) (vertices (self w)).

(** The worlds a driver can reach from a fresh engine by calling the two
    methods, in any order and whatever they answer. *)
Inductive reachable (vs : list (View.t scalar)) : World -> Prop :=
| reach_init : reachable vs (init vs)
| reach_seed (w : World) :
    reachable vs w -> reachable vs (fst (initial_reconstruction w))
| reach_step (w : World) :
    reachable vs w -> reachable vs (fst (next_refinement_step w)).

End MoreNotions.

(** ** The seed, as the specification words it *)

Section SeedSpec.
Context {B : Backend}.

(** The point of parameter [t] on the ray from [p] along [d]: [p + t*d],
    coordinate by coordinate. *)
Definition ray (p d : Vector3 scalar) (t : scalar) : ndarray3 scalar :=
  (fadd (x p) (fmul t (x d)),
   fadd (y p) (fmul t (y d)),
   fadd (z p) (fmul t (z d))).

(** The system [[d0 | -d1] . (t, s) = p1 - p0] of a pair of boundary
    points: its two columns and its right-hand side. *)
Definition columns (d0 d1 : Vector3 scalar)
  : ndarray3 scalar * ndarray3 scalar :=
  ((x d0, y d0, z d0), (fneg (x d1), fneg (y d1), fneg (z d1))).

Definition right_hand_side (p0 p1 : Vector3 scalar) : ndarray3 scalar :=
  (fsub (x p1) (x p0), fsub (y p1) (y p0), fsub (z p1) (z p0)).

(** The pair [(p0, p1)] is accepted with the point [q]: the solve gave
    [(t, s)], the points [q0 = p0 + t*d0] and [q1 = p1 + s*d1] are close
    for [np.allclose], and [q] is the [rl.Vector3] built from [q0]. *)
Definition accepts (view0 view1 : View.t scalar)
    (p0 p1 q : Vector3 scalar) : Prop :=
  exists t s : scalar,
    lstsq (columns (View.vy view0) (View.vy view1)) (right_hand_side p0 p1)
      = Some (t, s) /\
    allclose (ray p0 (View.vy view0) t) (ray p1 (View.vy view1) s) = true /\
    q = Vector3_new (fadd (x p0) (fmul t (x (View.vy view0))))
                    (fadd (y p0) (fmul t (y (View.vy view0))))
                    (fadd (z p0) (fmul t (z (View.vy view0)))).

(** What the pair [(p0, p1)] is specified to contribute: [q0] when it is
    accepted, nothing otherwise. *)
Definition inserted_for (view0 view1 : View.t scalar)
    (p0 p1 : Vector3 scalar) : list (Vector3 scalar) :=
  match lstsq (columns (View.vy view0) (View.vy view1))
              (right_hand_side p0 p1) with
  | Some (t, s) =>
      if allclose (ray p0 (View.vy view0) t) (ray p1 (View.vy view1) s)
      then [Vector3_new (fadd (x p0) (fmul t (x (View.vy view0))))
                        (fadd (y p0) (fmul t (y (View.vy view0))))
                        (fadd (z p0) (fmul t (z (View.vy view0))))]
      else []
  | None => []
  end.

(** The points specified for two views: every pair, [p0] outermost. *)
Definition seeded (view0 view1 : View.t scalar) : list (Vector3 scalar) :=
  flat_map (fun p0 =>
    flat_map (fun p1 => inserted_for view0 view1 p0 p1)
             (View.vertices view1))
    (View.vertices view0).

(** Consistency of a point with a view for a given equality of points:
    the projection of the point on the plane of the view is [equal] to
    some vertex of the silhouette.  With [vector3_equals] this is
    [consistent]. *)
Definition consistent_under
    (equal : Vector3 scalar -> Vector3 scalar -> bool)
    (view : View.t scalar) (point : Vector3 scalar) : bool :=
  match View.vertices view with
  | [] => false
  | plane_point :: _ =>
      existsb (fun view_point =>
                 equal (plane_intersec view plane_point point) view_point)
              (View.vertices view)
  end.

End SeedSpec.

(** ** A scene with an oblique second camera *)

Module Oblique.

Import Scene.
Local Open Scope Q_scope.

(** A camera at (-3, 0, -4) looking at the origin along (3/5, 0, 4/5). *)
Definition slanted (silhouette : list (Vector3 num)) : View.t num :=
  View.mk (V (-3) 0 (-4)) (V (4 # 5) 0 (- (3 # 5))) (V (3 # 5) 0 (4 # 5))
          (V 0 (-1) 0) silhouette.

(** One boundary point per view.  The ray of the first, from
    (1200 + 1/128, -1, 1600 - 3/512) along (0, 1, 0), passes at
    (1/128, 0, -3/512) from the point (1200, 0, 1600) of the ray of the
    second, 2005 units from its origin (-3, 0, -4). *)
Definition first : View.t num :=
  front [V (153601 # 128) (-1) (819197 # 512)].

Definition second : View.t num := slanted [V (-3) 0 (-4)].

Definition world : @World Exact.backend := engine [first; second].

(** [np.allclose(a, b)] on two points. *)
Definition allclose_to (a b : Vector3 num) : bool :=
  @allclose Exact.backend (@np_array Exact.backend a)
                          (@np_array Exact.backend b).

End Oblique.

(** ** The constructor of the engine *)

Module Loader.

(** A Python [dict] with string keys, as its lookup. *)
Definition dict (A : Type) : Type := string -> option A.

Section Init.
Context {B : Backend}.

(** [img]: what [cv2.imread] returns, an array or [None].  [E]: the
    exceptions of the collaborators ([os.listdir], [open], [json.load],
    [View]). *)
Variables img E : Type.

(** What [__init__] can raise: [KeyError] on a descriptor that lacks a
    key, or what a collaborator raised. *)
Inductive error : Type :=
| KeyError (key : string)
| Foreign (e : E).

Inductive result (A : Type) : Type :=
| Ok (a : A)
| Err (e : error).
Arguments Ok {A} a.
Arguments Err {A} e.

Definition and_then {A C : Type} (r : result A) (k : A -> result C)
  : result C :=
  match r with
  | Ok a => k a
  | Err e => Err e
  end.

(** The world outside the engine: the directory tree, the image reader,
    the descriptor reader ([open] then [json.load]; a descriptor is an
    object of objects of numbers) and the constructor of [View]. *)
Record Env : Type := mkEnv {
  listdir : string -> result (list string);
  isdir : string -> bool;
  join : string -> string -> string;
  imread : string -> img;
  load_json : string -> result (dict (dict scalar));
  View_new : img -> Vector3 scalar -> Vector3 scalar -> Vector3 scalar ->
             Vector3 scalar -> result (View.t scalar)
}.

(** The class attributes of lines 45-47. *)
Definition model_prefix : string := "models/model_".
Definition camera_file : string := "camera.json".
Definition image_view_file : string := "plane.bmp".

(** [d[key]] *)
Definition getitem {A : Type} (d : dict A) (key : string) : result A :=
  match d key with
  | Some a => Ok a
  | None => Err (KeyError key)
  end.

(** Lines 66-67 and their three repetitions: [data = json_data[key]] and
    [rl.Vector3(data['x'], data['y'], data['z'])]. *)
Definition vector3_at (json_data : dict (dict scalar)) (key : string)
  : result (Vector3 scalar) :=
  and_then (getitem json_data key) (fun data =>
  and_then (getitem data "x") (fun vx =>
  and_then (getitem data "y") (fun vy =>
  and_then (getitem data "z") (fun vz =>
  Ok (Vector3_new vx vy vz))))).

(** The test of line 58. *)
Definition selected (env : Env) (model_name view_dir : string) : bool :=
  isdir env (join env model_name view_dir) && prefix "view" view_dir.

(** Lines 60-77 up to the insertion: the view of one directory. *)
Definition build_view (env : Env) (model_name view_dir : string)
  : result (View.t scalar) :=
  let view_path := join env model_name view_dir in
  let image := imread env (join env view_path image_view_file) in
  and_then (load_json env (join env view_path camera_file)) (fun json_data =>
  and_then (vector3_at json_data "position") (fun pos =>
  and_then (vector3_at json_data "vx") (fun vx =>
  and_then (vector3_at json_data "vy") (fun vy =>
  and_then (vector3_at json_data "vz") (fun vz =>
  View_new env image pos vx vy vz))))).

(** The loop of lines 55-77 on the names still to visit, [views] being
    [self.views] so far. *)
Fixpoint load_views (env : Env) (model_name : string)
    (names : list string) (views : list (View.t scalar))
  : result (list (View.t scalar)) :=
  match names with
  | [] => Ok views
  | view_dir :: names' =>
      if selected env model_name view_dir then
        and_then (build_view env model_name view_dir) (fun v =>
        load_views env model_name names' (v :: views))
      else load_views env model_name names' views
  end.

(** [Model.__init__] *)
Definition Model_init (env : Env) (model_name : string) : result World :=
  let model_name := (model_prefix ++ model_name)%string in
  and_then (listdir env model_name) (fun names =>
  and_then (load_views env model_name names []) (fun views =>
  Ok (init views))).

End Init.

Arguments Ok {E A} a.
Arguments Err {E A} e.
Arguments KeyError {E} key.
Arguments Foreign {E} e.
Arguments and_then {E A C} r k.
Arguments listdir {B img E} e _.
Arguments isdir {B img E} e _.
Arguments join {B img E} e _ _.
Arguments imread {B img E} e _.
Arguments load_json {B img E} e _.
Arguments View_new {B img E} e _ _ _ _ _.
Arguments getitem {E A} d key.
Arguments vector3_at {B E} json_data key.
Arguments selected {B img E} env model_name view_dir.
Arguments build_view {B img E} env model_name view_dir.
Arguments load_views {B img E} env model_name names views.
Arguments Model_init {B img E} env model_name.

End Loader.

(** ** A sample model directory, in exact arithmetic *)

Module Disk.

Import Loader.
Local Open Scope string_scope.

(** An image stands for the boundary it shows; the foreign exceptions are
    named by a string. *)
Definition image : Type := list (Vector3 Scene.num).

(** The object [{"x": .., "y": .., "z": ..}]. *)
Definition xyz (v : Vector3 Scene.num) : dict Scene.num :=
  fun key =>
    if String.eqb key "x" then Some (x v)
    else if String.eqb key "y" then Some (y v)
    else if String.eqb key "z" then Some (z v)
    else None.

(** The descriptor of a view: its four objects. *)
Definition descriptor (view : View.t Scene.num) : dict (dict Scene.num) :=
  fun key =>
    if String.eqb key "position" then Some (xyz (View.position view))
    else if String.eqb key "vx" then Some (xyz (View.vx view))
    else if String.eqb key "vy" then Some (xyz (View.vy view))
    else if String.eqb key "vz" then Some (xyz (View.vz view))
    else None.

Definition front_view : View.t Scene.num :=
  Scene.front [Scene.V 0 (-1) 0; Scene.V 1 (-1) 0].

Definition side_view : View.t Scene.num :=
  Scene.side [Scene.V (-1) 0 0; Scene.V (-1) 1 0].

(** [models/model_square] holds two view directories and a file between
    them; [models/model_broken] holds a view directory without its
    descriptor after a good one. *)
Definition env : Env image string := {|
  listdir := fun path =>
    if String.eqb path "models/model_square"
    then Ok ["view_front"; "notes.txt"; "view_side"]
    else if String.eqb path "models/model_broken"
    then Ok ["view_front"; "view_lost"]
    else Err (Foreign "FileNotFoundError");
  isdir := fun path =>
    String.eqb path "models/model_square/view_front"
    || String.eqb path "models/model_square/view_side"
    || String.eqb path "models/model_broken/view_front"
    || String.eqb path "models/model_broken/view_lost";
  join := fun a b => a ++ "/" ++ b;
  imread := fun path =>
    if String.eqb path "models/model_square/view_front/plane.bmp"
    then View.vertices front_view
    else if String.eqb path "models/model_square/view_side/plane.bmp"
    then View.vertices side_view
    else [];
  load_json := fun path =>
    if String.eqb path "models/model_square/view_front/camera.json"
    then Ok (descriptor front_view)
    else if String.eqb path "models/model_square/view_side/camera.json"
    then Ok (descriptor side_view)
    else if String.eqb path "models/model_broken/view_front/camera.json"
    then Ok (descriptor front_view)
    else Err (Foreign "FileNotFoundError");
  View_new := fun silhouette pos vx vy vz =>
    Ok (View.mk pos vx vy vz silhouette)
|}.

End Disk.

(** ** Two more scenes: the same four views, the last two exchanged *)

Module Gallery.

Import Scene.
Local Open Scope Q_scope.

Definition top_three : View.t num := top [V 0 0 1; V 1 0 1; V 0 1 1].
Definition top_two : View.t num := top [V 0 0 1; V 1 0 1].

Definition one_order : @World Exact.backend :=
  engine [Disk.front_view; Disk.side_view; top_three; top_two].

Definition other_order : @World Exact.backend :=
  engine [Disk.front_view; Disk.side_view; top_two; top_three].

End Gallery.

(** ** Lists of references *)

Lemma filter_none_marked (f : ref -> bool) (l : list ref) :
  filter f l = [] -> filter (fun r => negb (f r)) l = l.
Proof.
  induction l as [|e l IH]; simpl; intro H; [reflexivity|].
  destruct (f e); [discriminate|]. simpl. now rewrite IH.
Qed.

Lemma list_remove_first (v : ref) (l : list ref) :
  In v l ->
  exists l1 l2, l = l1 ++ v :: l2 /\ ~ In v l1 /\
                list_remove v l = Some (l1 ++ l2).
Proof.
  induction l as [|e l IH]; simpl; [tauto|]. intros Hin.
  destruct (Nat.eqb_spec e v) as [->|Hne].
  - exists [], l. simpl. auto.
  - destruct Hin as [Heq|Hin]; [congruence|].
    destruct (IH Hin) as (l1 & l2 & -> & Hnot & Hrm).
    exists (e :: l1), l2. rewrite Hrm. simpl. intuition congruence.
Qed.

Lemma list_remove_length (v : ref) (l r : list ref) :
  list_remove v l = Some r -> S (List.length r) = List.length l.
Proof.
  revert r. induction l as [|e l IH]; simpl; intros r H; [discriminate|].
  destruct (Nat.eqb e v); [now inversion H|].
  destruct (list_remove v l) as [r'|]; [|discriminate].
  inversion H; subst. simpl. now rewrite (IH r').
Qed.

Lemma filter_length_le (f : ref -> bool) (l : list ref) :
  List.length (filter f l) <= List.length l.
Proof.
  induction l as [|e l IH]; simpl; [lia|]. destruct (f e); simpl; lia.
Qed.

(** ** The carving step *)

Section Carving.
Context {B : Backend}.

Lemma with_vertices_same (w : World) : with_vertices w (vertices (self w)) = w.
Proof. destruct w as [[vs l n] st b out]. reflexivity. Qed.

(** The scan marks the points that are not visible, last one first. *)
Lemma scan_marks view plane_point st (l : list ref) :
  scan view plane_point st l =
  rev (filter (fun r => negb (visible view plane_point (st r))) l).
Proof.
  unfold scan.
  enough (G : forall acc,
    fold_left (fun points_to_remove point =>
                 if negb (visible view plane_point (st point))
                 then point :: points_to_remove else points_to_remove) l acc
    = rev (filter (fun r => negb (visible view plane_point (st r))) l) ++ acc).
  { rewrite G. apply app_nil_r. }
  induction l as [|e l IH]; intro acc; simpl; [reflexivity|].
  rewrite IH. destruct (negb (visible view plane_point (st e))); simpl.
  - now rewrite <- app_assoc.
  - reflexivity.
Qed.

(** Removing, one [remove] call at a time and in any order, the marked
    points of the cloud never fails and leaves the unmarked ones, in their
    order. *)
Lemma remove_marked (f : ref -> bool) (ms : list ref) :
  forall w : World,
    Permutation ms (filter f (vertices (self w))) ->
    for_each ms vertices_remove w =
    (with_vertices w (filter (fun r => negb (f r)) (vertices (self w))),
     Return tt).
Proof.
  induction ms as [|m ms IH]; intros w HP.
  - apply Permutation_nil in HP. simpl. unfold ret.
    rewrite (filter_none_marked _ _ HP). now rewrite with_vertices_same.
  - assert (Hm : In m (filter f (vertices (self w)))).
    { apply (Permutation_in m HP). now left. }
    apply filter_In in Hm. destruct Hm as [Hin Hf].
    destruct (list_remove_first m _ Hin) as (l1 & l2 & Hl & _ & Hrm).
    simpl. unfold bind at 1. unfold vertices_remove, bind, get. rewrite Hrm.
    unfold set_self.
    change {| self := {| views := views (self w); vertices := l1 ++ l2;
                         next_view := next_view (self w) |};
              store := store w; brk := brk w; stdout := stdout w |}
      with (with_vertices w (l1 ++ l2)).
    rewrite IH.
    + unfold with_vertices; simpl. rewrite Hl, !filter_app. simpl.
      rewrite Hf. reflexivity.
    + simpl. rewrite Hl, filter_app in HP. simpl in HP. rewrite Hf in HP.
      rewrite filter_app. now apply Permutation_cons_app_inv in HP.
Qed.

End Carving.

Section StepProperties.
Context {B : Backend}.

Lemma with_next_view_same (w : World) : with_next_view w (next_view (self w)) = w.
Proof. destruct w as [[vs l n] st b out]. reflexivity. Qed.

Lemma consistent_visible view plane_point rest point :
  View.vertices view = plane_point :: rest ->
  consistent view point = visible view plane_point point.
Proof. unfold consistent. now intros ->. Qed.

(** What a step does when the filter view has a reference point. *)
Lemma step_filters (w : World) view plane_point rest :
  nth_error (views (self w)) (next_view (self w)) = Some view ->
  View.vertices view = plane_point :: rest ->
  next_refinement_step w =
  (with_next_view
     (with_vertices w
        (filter (fun r => visible view plane_point (store w r))
                (vertices (self w))))
     (S (next_view (self w))),
   Return true).
Proof.
  intros Hview Hpts.
  assert (Hlt : next_view (self w) < List.length (views (self w))).
  { apply nth_error_Some. congruence. }
  unfold next_refinement_step. unfold bind at 1. unfold get.
  destruct (Nat.leb_spec (List.length (views (self w))) (next_view (self w)));
    [lia|].
  unfold bind at 1. unfold lift, index. rewrite Hview.
  unfold bind at 1. rewrite Hpts. simpl nth_error. cbv iota.
  unfold bind at 1. rewrite scan_marks.
  rewrite (remove_marked
             (fun r => negb (visible view plane_point (store w r)))).
  - rewrite (filter_ext
               (fun r => negb (negb (visible view plane_point (store w r))))
               (fun r => visible view plane_point (store w r)))
      by (intro r; apply negb_involutive).
    reflexivity.
  - apply Permutation_sym, Permutation_rev.
Qed.

(** What a step does when the silhouette of the filter view is empty. *)
Lemma step_no_reference (w : World) view :
  nth_error (views (self w)) (next_view (self w)) = Some view ->
  View.vertices view = [] ->
  next_refinement_step w = (w, Raise IndexError).
Proof.
  intros Hview Hpts.
  assert (Hlt : next_view (self w) < List.length (views (self w))).
  { apply nth_error_Some. congruence. }
  unfold next_refinement_step. unfold bind at 1. unfold get.
  destruct (Nat.leb_spec (List.length (views (self w))) (next_view (self w)));
    [lia|].
  unfold bind at 1. unfold lift, index. rewrite Hview.
  unfold bind at 1. rewrite Hpts. reflexivity.
Qed.

(** What a step does once the views are consumed. *)
Lemma step_done (w : World) :
  List.length (views (self w)) <= next_view (self w) ->
  next_refinement_step w = (w, Return false).
Proof.
  intro Hle. unfold next_refinement_step, bind, get.
  destruct (Nat.leb_spec (List.length (views (self w))) (next_view (self w)));
    [reflexivity | lia].
Qed.

(** The three ways a call can go. *)
Lemma step_cases (w : World) :
  next_refinement_step w = (w, Return false) \/
  next_refinement_step w = (w, Raise IndexError) \/
  exists view plane_point rest,
    nth_error (views (self w)) (next_view (self w)) = Some view /\
    View.vertices view = plane_point :: rest /\
    next_refinement_step w =
    (with_next_view
       (with_vertices w
          (filter (fun r => visible view plane_point (store w r))
                  (vertices (self w))))
       (S (next_view (self w))),
     Return true).
Proof.
  destruct (Nat.le_gt_cases (List.length (views (self w)))
                            (next_view (self w))) as [Hle|Hlt].
  - left. now apply step_done.
  - destruct (nth_error (views (self w)) (next_view (self w))) as [view|] eqn:Hview.
    + destruct (View.vertices view) as [|plane_point rest] eqn:Hpts.
      * right; left. now apply step_no_reference with view.
      * right; right. exists view, plane_point, rest.
        repeat split; trivial. now apply step_filters with rest.
    + apply nth_error_None in Hview. lia.
Qed.

Lemma step_shrinks (w : World) :
  let w' := fst (next_refinement_step w) in
  List.length (vertices (self w')) <= List.length (vertices (self w)) /\
  incl (vertices (self w')) (vertices (self w)).
Proof.
  destruct (step_cases w) as [H|[H|(view & pp & rest & _ & _ & H)]];
    rewrite H; simpl.
  - split; [lia | apply incl_refl].
  - split; [lia | apply incl_refl].
  - split; [apply filter_length_le | apply incl_filter].
Qed.

Lemma calls_succ (k : nat) :
  forall w : World, calls (S k) w = fst (next_refinement_step (calls k w)).
Proof.
  induction k as [|k IH]; intro w; [reflexivity|].
  change (calls (S (S k)) w) with (calls (S k) (fst (next_refinement_step w))).
  now rewrite IH.
Qed.

(** C2. Once the cursor has reached the number of views, a call returns
    [False] and changes nothing in the world, vertices and cursor
    included; so after any number of such calls the next one still returns
    [False] on the same world. *)
Theorem terminal_calls_return_false (w : World) :
  List.length (views (self w)) <= next_view (self w) ->
  forall n : nat,
    calls n w = w /\
    next_refinement_step (calls n w) = (w, Return false).
Proof.
  intros Hle n.
  assert (Hn : calls n w = w).
  { induction n as [|n IH]; [reflexivity|].
    rewrite calls_succ, IH, (step_done w Hle). reflexivity. }
  rewrite Hn. split; [reflexivity | now apply step_done].
Qed.

(** C3. From any world and for any number [k] of calls, the cloud after
    [k+1] calls is no longer than after [k] calls, and every vertex it
    holds was already held after [k] calls: a call only removes. *)
Theorem vertices_shrink (w : World) (k : nat) :
  List.length (vertices (self (calls (S k) w)))
    <= List.length (vertices (self (calls k w))) /\
  incl (vertices (self (calls (S k) w))) (vertices (self (calls k w))).
Proof.
  rewrite calls_succ. apply step_shrinks.
Qed.

(** C8, amended.  When the cursor designates a view whose silhouette is
    not empty, one step keeps exactly the vertices whose projection on the
    plane of that view equals, for [vector3_equals], some vertex of the
    silhouette; the test is made on the cloud and the store as they were
    when the step began, the order of the kept vertices is unchanged, the
    cursor has advanced by one and the step returns [True]. *)
Theorem step_keeps_consistent (w : World) (view : View.t scalar) :
  nth_error (views (self w)) (next_view (self w)) = Some view ->
  View.vertices view <> [] ->
  next_refinement_step w =
  (with_next_view
     (with_vertices w
        (filter (fun r => consistent view (store w r)) (vertices (self w))))
     (S (next_view (self w))),
   Return true).
Proof.
  intros Hview Hne.
  destruct (View.vertices view) as [|plane_point rest] eqn:Hpts;
    [congruence|].
  rewrite (step_filters w view plane_point rest Hview Hpts).
  do 3 f_equal. apply filter_ext. intro r.
  symmetry. now apply consistent_visible with rest.
Qed.

(** C10. A step whose cursor designates a view with an empty silhouette
    raises [IndexError] on [view.vertices[0]] before it looks at the cloud:
    whatever the cloud holds, the empty cloud included, the call fails and
    leaves the world as it was. *)
Theorem step_empty_silhouette (w : World) (view : View.t scalar) :
  nth_error (views (self w)) (next_view (self w)) = Some view ->
  View.vertices view = [] ->
  next_refinement_step w = (w, Raise IndexError).
Proof.
  intros Hview Hpts. now apply step_no_reference with view.
Qed.

End StepProperties.

(** ** Sequences of steps *)

Section Sequences.
Context {B : Backend}.

(** C9, amended.  On an empty cloud, as long as the views still to be
    applied have a non-empty silhouette, every step returns [True], removes
    nothing and advances the cursor by one: [j] steps leave the world as it
    was but for the cursor, moved by [j]. *)
Theorem empty_cloud_steps (j : nat) :
  forall w : World,
    vertices (self w) = [] ->
    next_view (self w) + j <= List.length (views (self w)) ->
    (forall i view,
        next_view (self w) <= i < next_view (self w) + j ->
        nth_error (views (self w)) i = Some view ->
        View.vertices view <> []) ->
    carve j w = Some (with_next_view w (next_view (self w) + j)).
Proof.
  induction j as [|j IH]; intros w Hnil Hlen Hsil.
  - simpl. now rewrite Nat.add_0_r, with_next_view_same.
  - destruct (nth_error (views (self w)) (next_view (self w)))
      as [view|] eqn:Hview.
    2:{ apply nth_error_None in Hview. lia. }
    assert (Hne : View.vertices view <> []).
    { apply (Hsil (next_view (self w))); [lia | assumption]. }
    destruct (View.vertices view) as [|plane_point rest] eqn:Hpts;
      [congruence|].
    simpl. rewrite (step_filters w view plane_point rest Hview Hpts).
    rewrite Hnil. simpl filter. rewrite <- Hnil, with_vertices_same.
    rewrite IH.
    + simpl. unfold with_next_view. simpl. do 4 f_equal. lia.
    + simpl. assumption.
    + simpl. lia.
    + simpl. intros i v Hi. apply Hsil. lia.
Qed.

(** After [k] steps that returned [True]: the views and the store are the
    same, the cursor has moved by [k], the cloud has lost vertices only,
    and what is left is consistent with each view the steps applied. *)
Lemma carve_invariant (k : nat) :
  forall w wk : World,
    carve k w = Some wk ->
    views (self wk) = views (self w) /\
    next_view (self wk) = next_view (self w) + k /\
    store wk = store w /\
    incl (vertices (self wk)) (vertices (self w)) /\
    forall i view point,
      next_view (self w) <= i < next_view (self w) + k ->
      nth_error (views (self w)) i = Some view ->
      In point (cloud wk) ->
      consistent view point = true.
Proof.
  induction k as [|k IH]; intros w wk Hk.
  - simpl in Hk. inversion Hk; subst.
    repeat split; auto using incl_refl. intros; lia.
  - simpl in Hk.
    destruct (step_cases w) as [H|[H|(view & pp & rest & Hview & Hpts & H)]];
      rewrite H in Hk; try discriminate.
    apply IH in Hk. simpl in Hk.
    destruct Hk as (Hviews & Hnext & Hstore & Hincl & Hcons).
    split; [assumption|]. split; [lia|]. split; [assumption|].
    split.
    + intros r Hr. apply Hincl in Hr. apply filter_In in Hr. tauto.
    + intros i v point Hi Hv Hpoint.
      destruct (Nat.eq_dec i (next_view (self w))) as [->|Hneq].
      * assert (v = view) by congruence. subst v.
        unfold cloud in Hpoint. apply in_map_iff in Hpoint.
        destruct Hpoint as (r & <- & Hr).
        apply Hincl in Hr. apply filter_In in Hr.
        rewrite Hstore. simpl.
        rewrite (consistent_visible view pp rest _ Hpts). tauto.
      * apply (Hcons i); trivial. lia.
Qed.

End Sequences.

(** ** Seeding *)

Section Seeding.
Context {B : Backend}.

(** One pair: the loop body pushes what [accepted] lists. *)
Lemma try_pair_pushes (d0 d1 : ndarray3 scalar) (p0 p1 : Vector3 scalar)
    (w : World) :
  try_pair d0 d1 (np_array p0) p1 w =
  (fold_left push (accepted d0 d1 p0 p1) w, Return tt).
Proof.
  unfold try_pair, accepted, closest_points.
  destruct (lstsq (d0, arr_neg d1) (arr_sub (np_array p1) (np_array p0)))
    as [[t s]|]; [|reflexivity].
  destruct (allclose (arr_add (np_array p0) (arr_scale t d0))
                     (arr_add (np_array p1) (arr_scale s d1)));
    [|reflexivity].
  destruct (arr_add (np_array p0) (arr_scale t d0)) as [[c0 c1] c2].
  reflexivity.
Qed.

(** A loop whose body pushes [g a] pushes, in order, [g] of every element. *)
Lemma for_each_pushes {A : Type} (g : A -> list (Vector3 scalar))
    (body : A -> Py unit) (l : list A) :
  (forall a w, body a w = (fold_left push (g a) w, Return tt)) ->
  forall w, for_each l body w = (fold_left push (flat_map g l) w, Return tt).
Proof.
  intro Hbody. induction l as [|a l IH]; intro w; [reflexivity|].
  simpl. unfold bind. rewrite Hbody, IH, fold_left_app. reflexivity.
Qed.

(** What pushing a list of points does to the world. *)
Lemma fold_push (qs : list (Vector3 scalar)) :
  forall w : World,
    let w' := fold_left push qs w in
    let fresh := rev (seq (brk w) (List.length qs)) in
    views (self w') = views (self w) /\
    next_view (self w') = next_view (self w) /\
    stdout w' = stdout w /\
    brk w' = brk w + List.length qs /\
    vertices (self w') = fresh ++ vertices (self w) /\
    map (store w') fresh = rev qs /\
    forall r, r < brk w -> store w' r = store w r.
Proof.
  induction qs as [|q qs IH]; intro w.
  - simpl. repeat split; auto.
  - destruct (IH (push w q)) as (Hv & Hn & Ho & Hb & Hl & Hs & Hold).
    change (brk (push w q)) with (S (brk w)) in *.
    change (fold_left push (q :: qs) w) with (fold_left push qs (push w q)).
    change (rev (seq (brk w) (List.length (q :: qs))))
      with (rev (seq (S (brk w)) (List.length qs)) ++ [brk w]).
    cbv zeta.
    split; [exact Hv|]. split; [exact Hn|]. split; [exact Ho|].
    split; [simpl; lia|]. split.
    + rewrite Hl, <- app_assoc. reflexivity.
    + split.
      * rewrite map_app. change (rev (q :: qs)) with (rev qs ++ [q]).
        f_equal; [exact Hs|]. simpl. rewrite Hold by lia.
        simpl. now rewrite Nat.eqb_refl.
      * intros r Hr. rewrite Hold by lia. simpl.
        destruct (Nat.eqb_spec r (brk w)); [lia | reflexivity].
Qed.

(** The whole method, when the guard lets it through. *)
Lemma seed_run (w : World) view0 view1 rest :
  views (self w) = view0 :: view1 :: rest ->
  parallel_axes view0 view1 = false ->
  initial_reconstruction w =
  (fold_left push (triangulated view0 view1) (with_next_view w 2), Return tt).
Proof.
  intros Hviews Hguard.
  unfold initial_reconstruction. unfold bind at 1. unfold get.
  unfold bind at 1. unfold lift, index. rewrite Hviews. simpl nth_error.
  cbv iota. unfold bind at 1. cbv iota. rewrite Hguard.
  unfold bind at 1.
  change (set_next_view 2 w) with (with_next_view w 2, Return tt).
  cbv iota. unfold triangulated.
  apply for_each_pushes. intros p0 w0.
  apply for_each_pushes. intros p1 w1.
  apply try_pair_pushes.
Qed.

(** The whole method, when the guard stops it. *)
Lemma seed_guarded (w : World) view0 view1 rest :
  views (self w) = view0 :: view1 :: rest ->
  parallel_axes view0 view1 = true ->
  initial_reconstruction w =
  (fst (print "Both views have paralell vy vectors." w), Return tt).
Proof.
  intros Hviews Hguard.
  unfold initial_reconstruction. unfold bind at 1. unfold get.
  unfold bind at 1. unfold lift, index. rewrite Hviews. simpl nth_error.
  cbv iota. unfold bind at 1. cbv iota. rewrite Hguard. reflexivity.
Qed.

(** The specified contribution of a pair is what the loop body computes
    with numpy's array arithmetic. *)
Lemma accepted_inserted_for (view0 view1 : View.t scalar)
    (p0 p1 : Vector3 scalar) :
  accepted (np_array (View.vy view0)) (np_array (View.vy view1)) p0 p1
  = inserted_for view0 view1 p0 p1.
Proof.
  destruct view0 as [pos0 vx0 [a0 a1 a2] vz0 vs0].
  destruct view1 as [pos1 vx1 [b0 b1 b2] vz1 vs1].
  destruct p0 as [p0x p0y p0z], p1 as [p1x p1y p1z].
  unfold accepted, inserted_for, columns, right_hand_side, ray.
  unfold np_array, arr_neg, arr_sub, arr_add, arr_scale.
  cbn [View.vy x y z fst snd].
  destruct (lstsq _ _) as [[t s]|]; reflexivity.
Qed.

Lemma triangulated_seeded (view0 view1 : View.t scalar) :
  triangulated view0 view1 = seeded view0 view1.
Proof.
  unfold triangulated, seeded.
  apply flat_map_ext. intro p0. apply flat_map_ext. intro p1.
  apply accepted_inserted_for.
Qed.

Lemma inserted_for_accepts (view0 view1 : View.t scalar)
    (p0 p1 q : Vector3 scalar) :
  In q (inserted_for view0 view1 p0 p1) <-> accepts view0 view1 p0 p1 q.
Proof.
  unfold inserted_for, accepts. split.
  - destruct (lstsq _ _) as [[t s]|]; [|contradiction].
    destruct (allclose _ _) eqn:Hclose; [|contradiction].
    intros [<-|[]]. exists t, s. auto.
  - intros (t & s & Hls & Hclose & ->). rewrite Hls, Hclose. now left.
Qed.

(** C5. When the guard lets the seed through, the method returns, and for
    every pair [(p0, p1)] of a vertex of [views[0]] and a vertex of
    [views[1]], taken with [p0] outermost, it has put in front of the
    cloud a new object holding [q0 = p0 + t*d0] exactly when the solve of
    [[d0 | -d1] . (t, s) = p1 - p0] gave [(t, s)] and [q0] is close to
    [q1 = p1 + s*d1]; the other pairs contribute nothing, the vertices
    already there are kept, and the cursor is 2. *)
Theorem seed_inserts_accepted (w : World) view0 view1 rest :
  views (self w) = view0 :: view1 :: rest ->
  parallel_axes view0 view1 = false ->
  exists w' : World,
    initial_reconstruction w = (w', Return tt) /\
    vertices (self w')
      = rev (seq (brk w) (List.length (seeded view0 view1)))
        ++ vertices (self w) /\
    map (store w') (rev (seq (brk w) (List.length (seeded view0 view1))))
      = rev (seeded view0 view1) /\
    (forall r, r < brk w -> store w' r = store w r) /\
    views (self w') = views (self w) /\
    next_view (self w') = 2 /\
    stdout w' = stdout w /\
    (forall p0 p1 q,
        In q (inserted_for view0 view1 p0 p1) <->
        accepts view0 view1 p0 p1 q) /\
    (forall p0 p1,
        (forall q, ~ accepts view0 view1 p0 p1 q) ->
        inserted_for view0 view1 p0 p1 = []).
Proof.
  intros Hviews Hguard.
  exists (fold_left push (triangulated view0 view1) (with_next_view w 2)).
  split; [now apply seed_run with rest|].
  destruct (fold_push (triangulated view0 view1) (with_next_view w 2))
    as (Hv & Hn & Ho & Hb & Hl & Hs & Hold).
  rewrite triangulated_seeded in *. simpl in *.
  repeat split; try assumption.
  - apply inserted_for_accepts.
  - apply inserted_for_accepts.
  - intros p0 p1 Hnone.
    destruct (inserted_for view0 view1 p0 p1) as [|q l] eqn:E;
      [reflexivity|].
    exfalso. apply (Hnone q). apply inserted_for_accepts.
    rewrite E. now left.
Qed.

(** C7, amended.  With fewer than two views the seed raises [IndexError],
    the out-of-range access on [self.views[0]] or [self.views[1]], before
    it has changed anything. *)
Theorem seed_too_few_views (w : World) :
  List.length (views (self w)) < 2 ->
  initial_reconstruction w = (w, Raise IndexError).
Proof.
  intro Hlen. unfold initial_reconstruction, bind, get, lift, index.
  destruct (views (self w)) as [|view0 [|view1 rest]]; simpl in *;
    [reflexivity | reflexivity | lia].
Qed.

(** C1, amended.  After a seed that went through and [k] steps that
    returned [True], the cursor is [2+k] and every point left in the cloud
    is consistent with each of the views 2, ..., [2+k-1], the views the
    steps applied: its projection on the plane of the view equals, for
    [vector3_equals], some vertex of the silhouette.  With the two views
    of the seed it is consistent the way the seed checks it, for
    [np.allclose]: when the seed began on an empty cloud, the point is
    [q0 = p0 + t*d0] on the ray of a vertex [p0] of [views[0]], and it is
    close to the point [q1 = p1 + s*d1] on the ray of a vertex [p1] of
    [views[1]], where [(t, s)] is what the solve gave for the pair. *)
Theorem carved_cloud_consistent (w wk : World) view0 view1 rest (k : nat) :
  views (self w) = view0 :: view1 :: rest ->
  parallel_axes view0 view1 = false ->
  carve k (fst (initial_reconstruction w)) = Some wk ->
  next_view (self wk) = 2 + k /\
  views (self wk) = views (self w) /\
  (forall i view point,
      2 <= i < 2 + k ->
      nth_error (views (self wk)) i = Some view ->
      In point (cloud wk) ->
      consistent view point = true) /\
  (vertices (self w) = [] ->
   forall point,
     In point (cloud wk) ->
     exists p0 p1,
       In p0 (View.vertices view0) /\
       In p1 (View.vertices view1) /\
       accepts view0 view1 p0 p1 point).
Proof.
  intros Hviews Hguard Hk.
  rewrite (seed_run w view0 view1 rest Hviews Hguard) in Hk. simpl fst in Hk.
  destruct (fold_push (triangulated view0 view1) (with_next_view w 2))
    as (Hv1 & Hn1 & _ & _ & Hl & Hs & _).
  destruct (carve_invariant k _ wk Hk) as (Hv & Hn & Hstore & Hincl & Hcons).
  rewrite Hn1 in *. simpl in Hv1, Hn, Hcons, Hl, Hs.
  split; [assumption|]. split; [congruence|]. split.
  - intros i view point Hi Hview. apply (Hcons i); trivial. congruence.
  - intros Hnil point Hpoint.
    unfold cloud in Hpoint. apply in_map_iff in Hpoint.
    destruct Hpoint as (r & <- & Hr).
    apply Hincl in Hr. rewrite Hl, Hnil, app_nil_r in Hr.
    assert (Hin : In (store wk r) (rev (triangulated view0 view1))).
    { rewrite <- Hs, Hstore. now apply in_map. }
    apply in_rev in Hin. rewrite triangulated_seeded in Hin.
    unfold seeded in Hin.
    apply in_flat_map in Hin. destruct Hin as (p0 & Hp0 & Hin).
    apply in_flat_map in Hin. destruct Hin as (p1 & Hp1 & Hin).
    exists p0, p1. repeat split; trivial.
    now apply inserted_for_accepts.
Qed.

End Seeding.

(** ** The degenerate seeds and the numeric cases, in exact arithmetic *)

Section ExactFacts.
Local Open Scope Q_scope.

Lemma cross_product_scaled (k : Q) (u v : Vector3 Q) :
  Exact.scaled k u v ->
  x (Exact.cross_product u v) == 0 /\
  y (Exact.cross_product u v) == 0 /\
  z (Exact.cross_product u v) == 0.
Proof.
  intros (Hx & Hy & Hz). unfold Exact.cross_product; simpl.
  rewrite Hx, Hy, Hz. repeat split; ring.
Qed.

Lemma parallel_axes_scaled (k : Q) (view0 view1 : View.t Q) :
  Exact.scaled k (View.vy view0) (View.vy view1) ->
  @parallel_axes Exact.backend view0 view1 = true.
Proof.
  intro H. apply cross_product_scaled in H. destruct H as (Hx & Hy & Hz).
  unfold parallel_axes.
  rewrite !andb_true_iff. repeat split; apply Qeq_bool_iff; assumption.
Qed.

Lemma sum_squares_zero (a b c : Q) :
  a * a + b * b + c * c == 0 -> a == 0 /\ b == 0 /\ c == 0.
Proof.
  intro H.
  assert (Ha : 0 <= a * a) by nra.
  assert (Hb : 0 <= b * b) by nra.
  assert (Hc : 0 <= c * c) by nra.
  assert (Ea : a * a == 0) by lra.
  assert (Eb : b * b == 0) by lra.
  assert (Ec : c * c == 0) by lra.
  repeat split.
  - destruct (Qmult_integral _ _ Ea); assumption.
  - destruct (Qmult_integral _ _ Eb); assumption.
  - destruct (Qmult_integral _ _ Ec); assumption.
Qed.

(** The exact solve never fails, and what it returns minimises
    [|t*c0 + s*c1 - b|]: the residual is orthogonal to both columns (the
    normal equations), whatever the rank of the matrix. *)
Lemma least_squares_normal_equations (c0 c1 b : ndarray3 Q) :
  exists t s : Q,
    Exact.least_squares (c0, c1) b = Some (t, s) /\
    t * Exact.dot c0 c0 + s * Exact.dot c0 c1 == Exact.dot c0 b /\
    t * Exact.dot c0 c1 + s * Exact.dot c1 c1 == Exact.dot c1 b.
Proof.
  destruct c0 as [[a0 a1] a2], c1 as [[b0 b1] b2], b as [[e0 e1] e2].
  unfold Exact.least_squares.
  set (g00 := Exact.dot (a0, a1, a2) (a0, a1, a2)).
  set (g01 := Exact.dot (a0, a1, a2) (b0, b1, b2)).
  set (g11 := Exact.dot (b0, b1, b2) (b0, b1, b2)).
  set (r0 := Exact.dot (a0, a1, a2) (e0, e1, e2)).
  set (r1 := Exact.dot (b0, b1, b2) (e0, e1, e2)).
  destruct (Qeq_bool (g00 * g11 - g01 * g01) 0) eqn:Edet.
  - apply Qeq_bool_iff in Edet.
    assert (Hm : (a0 * b1 - a1 * b0) * (a0 * b1 - a1 * b0)
                 + (a0 * b2 - a2 * b0) * (a0 * b2 - a2 * b0)
                 + (a1 * b2 - a2 * b1) * (a1 * b2 - a2 * b1) == 0).
    { rewrite <- Edet. unfold g00, g01, g11, Exact.dot. ring. }
    apply sum_squares_zero in Hm. destruct Hm as (M01 & M02 & M12).
    assert (K0 : g01 * r1 - g11 * r0 == 0).
    { transitivity
        (- (b1 * e0 - b0 * e1) * (a0 * b1 - a1 * b0)
         - (b2 * e0 - b0 * e2) * (a0 * b2 - a2 * b0)
         - (b2 * e1 - b1 * e2) * (a1 * b2 - a2 * b1)).
      - unfold g01, g11, r0, r1, Exact.dot. ring.
      - rewrite M01, M02, M12. ring. }
    assert (K1 : g01 * r0 - g00 * r1 == 0).
    { transitivity
        ((a1 * e0 - a0 * e1) * (a0 * b1 - a1 * b0)
         + (a2 * e0 - a0 * e2) * (a0 * b2 - a2 * b0)
         + (a2 * e1 - a1 * e2) * (a1 * b2 - a2 * b1)).
      - unfold g00, g01, r0, r1, Exact.dot. ring.
      - rewrite M01, M02, M12. ring. }
    destruct (Qeq_bool (g00 + g11) 0) eqn:Efro.
    + apply Qeq_bool_iff in Efro.
      assert (Z0 : 0 <= g00) by (unfold g00, Exact.dot; nra).
      assert (Z1 : 0 <= g11) by (unfold g11, Exact.dot; nra).
      assert (E0 : g00 == 0) by lra.
      assert (E1 : g11 == 0) by lra.
      unfold g00, Exact.dot in E0. apply sum_squares_zero in E0.
      unfold g11, Exact.dot in E1. apply sum_squares_zero in E1.
      destruct E0 as (A0 & A1 & A2), E1 as (B0 & B1 & B2).
      exists 0, 0. split; [reflexivity|].
      unfold r0, r1, g01, Exact.dot.
      rewrite A0, A1, A2, B0, B1, B2. split; ring.
    + apply Qeq_bool_neq in Efro.
      exists (r0 / (g00 + g11)), (r1 / (g00 + g11)).
      split; [reflexivity|]. split.
      * transitivity
          ((r0 * (g00 + g11) + (g01 * r1 - g11 * r0)) / (g00 + g11)).
        -- field. assumption.
        -- rewrite K0. field. assumption.
      * transitivity
          ((r1 * (g00 + g11) + (g01 * r0 - g00 * r1)) / (g00 + g11)).
        -- field. assumption.
        -- rewrite K1. field. assumption.
  - apply Qeq_bool_neq in Edet.
    eexists; eexists. split; [reflexivity|].
    split; field; assumption.
Qed.

End ExactFacts.

(** C4. Whatever the collaborators, when the cross product of the optical
    axes of [views[0]] and [views[1]] is null the seed returns at once: it
    prints its message and changes nothing else, so that the cloud and the
    cursor are as they were (empty and 0 on a fresh engine).  In exact
    arithmetic the cross product is null for identical and for opposite
    axes. *)
Theorem seed_parallel_noop :
  (forall (B : Backend) (w : World) view0 view1 rest,
      views (self w) = view0 :: view1 :: rest ->
      parallel_axes view0 view1 = true ->
      exists w' : World,
        initial_reconstruction w = (w', Return tt) /\
        self w' = self w /\ store w' = store w /\ brk w' = brk w /\
        stdout w' = (stdout w ++ [Scene.message])%list) /\
  (forall view0 view1 : View.t Q,
      Exact.scaled 1 (View.vy view0) (View.vy view1) \/
      Exact.scaled (-1) (View.vy view0) (View.vy view1) ->
      @parallel_axes Exact.backend view0 view1 = true).
Proof.
  split.
  - intros B w view0 view1 rest Hviews Hguard.
    rewrite (seed_guarded w view0 view1 rest Hviews Hguard).
    eexists. split; [reflexivity|]. simpl. auto.
  - intros view0 view1 [H|H]; eapply parallel_axes_scaled; exact H.
Qed.

Section ParallelRays.
Import Scene.
Local Open Scope Q_scope.

(** Whatever parameters the solve returns for the two rays, the first
    components of the two points are 0 and 1. *)
Lemma parallel_rays_never_close (t s : @scalar Exact.backend) :
  allclose (arr_add (np_array p0) (arr_scale t d))
           (arr_add (np_array p1) (arr_scale s d)) = false.
Proof.
  unfold arr_add, arr_scale, np_array, d, p0, p1; simpl.
  assert (H : Exact.isclose (0 + t * 0) (1 + s * 0) = false).
  { unfold Exact.isclose.
    destruct (Qle_bool _ _) eqn:E; [|reflexivity].
    apply Qle_bool_iff in E.
    assert (E1 : 0 + t * 0 - (1 + s * 0) == -1) by ring.
    assert (E2 : 1 + s * 0 == 1) by ring.
    rewrite E1, E2 in E. vm_compute in E. now contradiction E. }
  now rewrite H.
Qed.

(** C6. For the rays [(0,0,0) + t*(0,1,0)] and [(1,1,0) + s*(0,1,0)] the
    solve returns parameters without error, [(1/2, -1/2)] in exact
    arithmetic; the two points it gives are at distance 1 and the
    closeness test rejects them, as it does for any parameters; the loop
    body leaves the world as it was, and a seed on two views that carry
    these rays inserts nothing. *)
Theorem parallel_rays_rejected :
  lstsq (d, arr_neg d) (arr_sub (np_array p1) (np_array p0))
    = Some (1 # 2, - (1 # 2)) /\
  (exists q0 q1 : ndarray3 Q,
      closest_points d d (np_array p0) (np_array p1) = Some (q0, q1) /\
      Exact.dist2 q0 q1 == 1 /\
      @allclose Exact.backend q0 q1 = false) /\
  (forall t s : @scalar Exact.backend,
      allclose (arr_add (np_array p0) (arr_scale t d))
               (arr_add (np_array p1) (arr_scale s d)) = false) /\
  (forall w : @World Exact.backend,
      try_pair d d (np_array p0) p1 w = (w, Return tt)) /\
  accepted d d p0 p1 = [] /\
  cloud (seed parallel_rays) = [].
Proof.
  split; [reflexivity|].
  split; [eexists; eexists; repeat split; reflexivity|].
  split; [exact parallel_rays_never_close|].
  split; [|split; reflexivity].
  intro w. reflexivity.
Qed.

End ParallelRays.

(** ** The claims that fail, each at an input *)

(** C1 fails for [k = 0] on two views with one vertex each, whichever
    equality is meant for the views of the seed.  The two rays pass at
    (1/128, 0, -3/512) from each other near (1200, 0, 1600), where
    [np.allclose] allows 1e-8 + 1e-5 * 1200 and 1e-8 + 1e-5 * 1600: the
    seed accepts the pair.  The point it inserts projects on the plane of
    [views[1]] at (1/128, 0, -3/512) from the only vertex (-3, 0, -4) of
    that silhouette, where [vector3_equals] allows 3e-6 and [np.allclose]
    3e-5, in either order of its arguments.  The same point is consistent
    with [views[0]].  The margins are a factor 1.5 at the seed and more
    than 250 at the projection, far above the rounding of floats. *)
Lemma seeded_point_matches_no_vertex :
  snd (@initial_reconstruction Exact.backend Oblique.world) = Return tt /\
  next_view (self (Scene.seed Oblique.world)) = 2 /\
  carve 0 (Scene.seed Oblique.world) = Some (Scene.seed Oblique.world) /\
  views (self (Scene.seed Oblique.world)) = [Oblique.first; Oblique.second] /\
  exists point : Vector3 Scene.num,
    In point (cloud (Scene.seed Oblique.world)) /\
    @consistent Exact.backend Oblique.first point = true /\
    @consistent Exact.backend Oblique.second point = false /\
    @consistent_under Exact.backend (@vector3_equals Exact.backend)
      Oblique.second point = false /\
    @consistent_under Exact.backend Oblique.allclose_to
      Oblique.second point = false /\
    @consistent_under Exact.backend (fun a b => Oblique.allclose_to b a)
      Oblique.second point = false.
Proof.
  split; [vm_compute; reflexivity|]. split; [vm_compute; reflexivity|].
  split; [reflexivity|]. split; [vm_compute; reflexivity|].
  exists (store (Scene.seed Oblique.world) 0).
  split; [vm_compute; left; reflexivity|].
  repeat split; vm_compute; reflexivity.
Qed.

(** C7 fails on an engine without views: what the seed raises is the
    [IndexError] of the out-of-range access [self.views[0]]. *)
Lemma seed_without_views_index_error :
  List.length (views (self (Scene.engine []))) < 2 /\
  @initial_reconstruction Exact.backend (Scene.engine [])
    = (Scene.engine [], Raise IndexError).
Proof. split; [simpl; lia | reflexivity]. Qed.

(** C8 fails when the silhouette of the filter view is empty: the cursor
    is below the number of views, yet the step raises [IndexError], keeps
    the inconsistent point, does not advance and does not return [True]. *)
Lemma step_on_blank_view_raises :
  next_view (self (Scene.seed Scene.blank_top))
    < List.length (views (self (Scene.seed Scene.blank_top))) /\
  List.length (vertices (self (Scene.seed Scene.blank_top))) = 1%nat /\
  @next_refinement_step Exact.backend (Scene.seed Scene.blank_top)
    = (Scene.seed Scene.blank_top, Raise IndexError).
Proof. split; [simpl; lia | split; reflexivity]. Qed.

(** C9 fails in the same way: the seed goes through and accepts no pair,
    and the first step on the empty cloud raises [IndexError] on the empty
    silhouette of the third view. *)
Lemma empty_cloud_step_raises :
  snd (@initial_reconstruction Exact.backend Scene.blank_third) = Return tt /\
  next_view (self (Scene.seed Scene.blank_third)) = 2 /\
  vertices (self (Scene.seed Scene.blank_third)) = [] /\
  @next_refinement_step Exact.backend (Scene.seed Scene.blank_third)
    = (Scene.seed Scene.blank_third, Raise IndexError).
Proof. repeat split; reflexivity. Qed.

(** ** The theorems at sample scenes *)

Section Samples.
Import Scene.
Local Open Scope Q_scope.

(** The square seen from the front, from the side and from above: the seed
    finds its four corners, the step drops the corner (1, 1) that the
    third silhouette lacks, and the next call returns [False]. *)
Example square_scenario :
  cloud (seed square) = [V 1 1 0; V 1 0 0; V 0 1 0; V 0 0 0] /\
  next_view (self (seed square)) = 2%nat /\
  snd (next_refinement_step (seed square)) = Return true /\
  cloud (step (seed square)) = [V 1 0 0; V 0 1 0; V 0 0 0] /\
  next_view (self (step (seed square))) = 3%nat /\
  snd (next_refinement_step (step (seed square))) = Return false.
Proof. repeat split; reflexivity. Qed.

Lemma carved_cloud_consistent_witness :
  next_view (self (step (seed square))) = (2 + 1)%nat /\
  views (self (step (seed square))) = views (self square) /\
  (forall i view point,
      (2 <= i < 2 + 1)%nat ->
      nth_error (views (self (step (seed square)))) i = Some view ->
      In point (cloud (step (seed square))) ->
      consistent view point = true) /\
  (vertices (self square) = [] ->
   forall point,
     In point (cloud (step (seed square))) ->
     exists p0 p1,
       In p0 [V 0 (-1) 0; V 1 (-1) 0] /\
       In p1 [V (-1) 0 0; V (-1) 1 0] /\
       accepts (front [V 0 (-1) 0; V 1 (-1) 0])
               (side [V (-1) 0 0; V (-1) 1 0]) p0 p1 point).
Proof.
  apply (carved_cloud_consistent square (step (seed square))
           (front [V 0 (-1) 0; V 1 (-1) 0])
           (side [V (-1) 0 0; V (-1) 1 0])
           [top [V 0 0 1; V 1 0 1; V 0 1 1]] 1);
    reflexivity.
Defined.

Lemma terminal_calls_witness :
  calls 3 (step (seed square)) = step (seed square) /\
  next_refinement_step (calls 3 (step (seed square)))
    = (step (seed square), Return false).
Proof.
  apply (terminal_calls_return_false (step (seed square))).
  vm_compute. apply le_n.
Defined.

Lemma seed_parallel_witness :
  exists w' : @World Exact.backend,
    initial_reconstruction parallel_rays = (w', Return tt) /\
    self w' = self parallel_rays /\ store w' = store parallel_rays /\
    brk w' = brk parallel_rays /\
    stdout w' = (stdout parallel_rays ++ [message])%list.
Proof.
  apply (proj1 seed_parallel_noop Exact.backend parallel_rays ray0 ray1 []);
    reflexivity.
Defined.

(** On the square the four pairs are accepted: the seed allocates the
    objects 0 to 3 and they hold the four corners, last pair first. *)
Lemma seed_inserts_witness :
  exists w' : @World Exact.backend,
    initial_reconstruction square = (w', Return tt) /\
    vertices (self w') = [3; 2; 1; 0]%nat /\
    map (store w') [3; 2; 1; 0]%nat
      = [V 1 1 0; V 1 0 0; V 0 1 0; V 0 0 0] /\
    (forall r, (r < 0)%nat -> store w' r = store square r) /\
    views (self w') = views (self square) /\
    next_view (self w') = 2%nat /\
    stdout w' = stdout square /\
    (forall p0 p1 q,
        In q (inserted_for (front [V 0 (-1) 0; V 1 (-1) 0])
                           (side [V (-1) 0 0; V (-1) 1 0]) p0 p1) <->
        accepts (front [V 0 (-1) 0; V 1 (-1) 0])
                (side [V (-1) 0 0; V (-1) 1 0]) p0 p1 q) /\
    (forall p0 p1,
        (forall q, ~ accepts (front [V 0 (-1) 0; V 1 (-1) 0])
                             (side [V (-1) 0 0; V (-1) 1 0]) p0 p1 q) ->
        inserted_for (front [V 0 (-1) 0; V 1 (-1) 0])
                     (side [V (-1) 0 0; V (-1) 1 0]) p0 p1 = []).
Proof.
  exact (seed_inserts_accepted square
           (front [V 0 (-1) 0; V 1 (-1) 0])
           (side [V (-1) 0 0; V (-1) 1 0])
           [top [V 0 0 1; V 1 0 1; V 0 1 1]] eq_refl eq_refl).
Defined.

Lemma seed_too_few_views_witness :
  initial_reconstruction (engine [front [V 0 (-1) 0]])
    = (engine [front [V 0 (-1) 0]], Raise IndexError).
Proof.
  apply (seed_too_few_views (engine [front [V 0 (-1) 0]])).
  simpl. lia.
Defined.

Lemma step_keeps_consistent_witness :
  next_refinement_step (seed square) =
  (with_next_view
     (with_vertices (seed square)
        (filter (fun r => consistent (top [V 0 0 1; V 1 0 1; V 0 1 1])
                                     (store (seed square) r))
                (vertices (self (seed square)))))
     (S (next_view (self (seed square)))),
   Return true).
Proof.
  apply (step_keeps_consistent (seed square)
           (top [V 0 0 1; V 1 0 1; V 0 1 1]));
    [reflexivity | discriminate].
Defined.

Lemma empty_cloud_steps_witness :
  carve 1 (seed skew_rays)
    = Some (with_next_view (seed skew_rays)
                           (next_view (self (seed skew_rays)) + 1)).
Proof.
  apply (empty_cloud_steps 1 (seed skew_rays)).
  - reflexivity.
  - simpl. lia.
  - intros i view Hi Hview. simpl in Hi.
    assert (Ei : i = 2%nat) by lia. subst i.
    simpl in Hview. inversion Hview. discriminate.
Defined.

Lemma step_empty_silhouette_witness :
  vertices (self (seed blank_third)) = [] /\
  next_refinement_step (seed blank_third)
    = (seed blank_third, Raise IndexError).
Proof.
  split; [reflexivity|].
  apply (step_empty_silhouette (seed blank_third) (top [])); reflexivity.
Defined.

End Samples.

(** ** Beyond the specification: outcomes of a step *)

Section StepOutcomes.
Context {B : Backend}.

(** X1. A call of [next_refinement_step] never touches the views, the
    allocated objects or the output, whatever it answers. *)
Theorem step_frame (w : World) :
  views (self (fst (next_refinement_step w))) = views (self w) /\
  store (fst (next_refinement_step w)) = store w /\
  brk (fst (next_refinement_step w)) = brk w /\
  stdout (fst (next_refinement_step w)) = stdout w.
Proof.
  destruct (step_cases w) as [H|[H|(view & pp & rest & _ & _ & H)]];
    rewrite H; simpl; auto.
Qed.

(** X2. A step raises exactly when the view under the cursor has an empty
    silhouette; what it raises is then [IndexError], never the
    [ValueError] of [list.remove], and the failed call has changed
    nothing. *)
Theorem step_raises_iff (w : World) :
  ((exists e, snd (next_refinement_step w) = Raise e) <->
   (exists view,
       nth_error (views (self w)) (next_view (self w)) = Some view /\
       View.vertices view = [])) /\
  (forall e, snd (next_refinement_step w) = Raise e ->
             e = IndexError /\ fst (next_refinement_step w) = w).
Proof.
  split; [split|].
  - intros (e & He).
    destruct (Nat.le_gt_cases (List.length (views (self w)))
                              (next_view (self w))) as [Hle|Hlt].
    { rewrite (step_done w Hle) in He. discriminate. }
    destruct (nth_error (views (self w)) (next_view (self w)))
      as [view|] eqn:Hview.
    2:{ apply nth_error_None in Hview. lia. }
    exists view. split; [reflexivity|].
    destruct (View.vertices view) as [|pp rest] eqn:Hpts; [reflexivity|].
    rewrite (step_filters w view pp rest Hview Hpts) in He. discriminate.
  - intros (view & Hview & Hpts). exists IndexError.
    now rewrite (step_no_reference w view Hview Hpts).
  - intros e He.
    destruct (step_cases w) as [H|[H|(view & pp & rest & _ & _ & H)]];
      rewrite H in *; simpl in *; try discriminate.
    split; congruence.
Qed.

(** X3. The cursor moves forward by one exactly when the call returns
    [True]; on any other answer it stays where it was. *)
Theorem step_cursor (w : World) :
  next_view (self (fst (next_refinement_step w))) =
  match snd (next_refinement_step w) with
  | Return true => S (next_view (self w))
  | _ => next_view (self w)
  end.
Proof.
  destruct (step_cases w) as [H|[H|(view & pp & rest & _ & _ & H)]];
    rewrite H; reflexivity.
Qed.

(** X4. A view with an empty silhouette blocks the engine for good: once
    the cursor is on it, every later call raises [IndexError] and the
    world never changes again. *)
Theorem blank_view_blocks (w : World) (view : View.t scalar) :
  nth_error (views (self w)) (next_view (self w)) = Some view ->
  View.vertices view = [] ->
  forall n : nat,
    calls n w = w /\
    next_refinement_step (calls n w) = (w, Raise IndexError).
Proof.
  intros Hview Hpts n.
  assert (Hn : calls n w = w).
  { induction n as [|n IH]; [reflexivity|].
    rewrite calls_succ, IH, (step_no_reference w view Hview Hpts).
    reflexivity. }
  rewrite Hn. split; [reflexivity|].
  now apply step_no_reference with view.
Qed.

End StepOutcomes.

(** ** Beyond the specification: how steps compose *)

Lemma filter_all (A : Type) (l : list A) : filter (fun _ => true) l = l.
Proof. induction l as [|a l IH]; simpl; congruence. Qed.

Lemma filter_twice (A : Type) (f g : A -> bool) (l : list A) :
  filter g (filter f l) = filter (fun a => f a && g a) l.
Proof.
  induction l as [|a l IH]; simpl; [reflexivity|].
  destruct (f a); simpl; [destruct (g a)|]; now rewrite IH.
Qed.

Lemma skipn_head (A : Type) (n : nat) :
  forall (l : list A) (a : A) (t : list A),
    skipn n l = a :: t -> nth_error l n = Some a /\ skipn (S n) l = t.
Proof.
  induction n as [|n IH]; intros [|b l] a t H; simpl in *;
    try discriminate.
  - inversion H. auto.
  - destruct (IH l a t H) as [H1 H2]. split; [assumption | exact H2].
Qed.

Lemma forallb_permutation (A : Type) (f : A -> bool) (l l' : list A) :
  Permutation l l' -> forallb f l = forallb f l'.
Proof.
  induction 1 as [|a l l' _ IH|a b l|l l' l'' _ IH1 _ IH2]; simpl.
  - reflexivity.
  - now rewrite IH.
  - destruct (f a), (f b); reflexivity.
  - congruence.
Qed.

Section Composition.
Context {B : Backend}.

Lemma carve_calls (k : nat) :
  forall w w' : World, carve k w = Some w' -> calls k w = w'.
Proof.
  induction k as [|k IH]; intros w w' H; simpl in *; [congruence|].
  destruct (next_refinement_step w) as [w1 [[|]|e]]; simpl;
    try discriminate.
  now apply IH.
Qed.

Lemma calls_add (k m : nat) :
  forall w : World, calls (k + m) w = calls m (calls k w).
Proof.
  induction k as [|k IH]; intro w; [reflexivity|]. simpl. apply IH.
Qed.

(** [k] steps over views with non-empty silhouettes. *)
Lemma carve_prefix (k : nat) :
  forall w : World,
    k <= List.length (pending w) ->
    (forall view, In view (firstn k (pending w)) ->
                  View.vertices view <> []) ->
    carve k w =
    Some (with_next_view
            (with_vertices w
               (filter (fun r => consistent_all (firstn k (pending w))
                                                (store w r))
                       (vertices (self w))))
            (next_view (self w) + k)).
Proof.
  induction k as [|k IH]; intros w Hlen Hsil.
  - simpl. unfold consistent_all. simpl. rewrite filter_all.
    now rewrite with_vertices_same, Nat.add_0_r, with_next_view_same.
  - destruct (pending w) as [|view rest] eqn:Hpend; [simpl in Hlen; lia|].
    destruct (skipn_head _ _ _ _ _ Hpend) as [Hview Hrest].
    assert (Hne : View.vertices view <> []) by (apply Hsil; now left).
    destruct (View.vertices view) as [|pp rs] eqn:Hpts; [congruence|].
    simpl carve. rewrite (step_filters w view pp rs Hview Hpts).
    set (w1 := with_next_view
                 (with_vertices w
                    (filter (fun r => visible view pp (store w r))
                            (vertices (self w))))
                 (S (next_view (self w)))).
    assert (Hp1 : pending w1 = rest) by exact Hrest.
    rewrite (IH w1).
    + rewrite Hp1. unfold w1, with_next_view, with_vertices. simpl.
      rewrite filter_twice.
      rewrite (filter_ext
                 (fun a => visible view pp (store w a)
                           && consistent_all (firstn k rest) (store w a))
                 (fun r => consistent_all (view :: firstn k rest)
                                          (store w r))).
      * do 4 f_equal. lia.
      * intro r. unfold consistent_all. simpl.
        now rewrite (consistent_visible view pp rs _ Hpts).
    + rewrite Hp1. simpl in Hlen. lia.
    + rewrite Hp1. intros v Hv. apply Hsil. now right.
Qed.

Lemma map_filter_store (f : ref -> Vector3 scalar)
    (g : Vector3 scalar -> bool) (l : list ref) :
  map f (filter (fun r => g (f r)) l) = filter g (map f l).
Proof.
  induction l as [|r l IH]; simpl; [reflexivity|].
  destruct (g (f r)); simpl; now rewrite IH.
Qed.

(** X5. Steps compose into one filter: when the next [k] views have
    non-empty silhouettes, [k] calls all return [True] and leave exactly
    the vertices consistent with every one of those views, in their
    order, with the cursor moved by [k]; the points of the cloud are then
    the former points that are consistent with the [k] views. *)
Theorem steps_compose (k : nat) (w : World) :
  k <= List.length (pending w) ->
  (forall view, In view (firstn k (pending w)) -> View.vertices view <> []) ->
  carve k w =
  Some (with_next_view
          (with_vertices w
             (filter (fun r => consistent_all (firstn k (pending w))
                                              (store w r))
                     (vertices (self w))))
          (next_view (self w) + k)) /\
  cloud (calls k w) =
  filter (consistent_all (firstn k (pending w))) (cloud w).
Proof.
  intros Hlen Hsil.
  pose proof (carve_prefix k w Hlen Hsil) as H.
  split; [exact H|].
  rewrite (carve_calls k w _ H). unfold cloud. simpl.
  apply map_filter_store.
Qed.

Lemma carve_all (w : World) :
  (forall view, In view (pending w) -> View.vertices view <> []) ->
  carve (List.length (pending w)) w = Some (carved w).
Proof.
  intro Hsil. rewrite carve_prefix.
  - now rewrite firstn_all.
  - apply le_n.
  - now rewrite firstn_all.
Qed.

Lemma carved_done (w : World) :
  List.length (views (self (carved w))) <= next_view (self (carved w)).
Proof.
  unfold carved, pending. simpl. rewrite length_skipn. lia.
Qed.

(** X6. A driver that keeps calling the step reaches a fixed point: when
    the pending views have non-empty silhouettes, as many calls as there
    are pending views all return [True], and from then on every call
    returns [False] on the same world, whose cloud is what was consistent
    with all the pending views. *)
Theorem driver_reaches_carved (w : World) :
  (forall view, In view (pending w) -> View.vertices view <> []) ->
  carve (List.length (pending w)) w = Some (carved w) /\
  forall m : nat,
    calls (List.length (pending w) + m) w = carved w /\
    next_refinement_step (calls (List.length (pending w) + m) w)
      = (carved w, Return false).
Proof.
  intro Hsil. split; [now apply carve_all|]. intro m.
  assert (Hm : calls (List.length (pending w) + m) w = carved w).
  { rewrite calls_add, (carve_calls _ _ _ (carve_all w Hsil)).
    induction m as [|m IH]; [reflexivity|].
    rewrite calls_succ, IH, (step_done _ (carved_done w)). reflexivity. }
  rewrite Hm. split; [reflexivity|].
  apply step_done, carved_done.
Qed.

(** X7. When no pending view has an empty silhouette, the order in which
    the pending views are applied does not matter: two engines with the
    same cloud and the same objects, whose pending views are the same up
    to their order, end with the same vertices. *)
Theorem carving_order_irrelevant (w1 w2 : World) :
  vertices (self w1) = vertices (self w2) ->
  store w1 = store w2 ->
  Permutation (pending w1) (pending w2) ->
  (forall view, In view (pending w1) -> View.vertices view <> []) ->
  carve (List.length (pending w1)) w1 = Some (carved w1) /\
  carve (List.length (pending w2)) w2 = Some (carved w2) /\
  vertices (self (carved w1)) = vertices (self (carved w2)).
Proof.
  intros Hv Hs Hp Hsil.
  split; [now apply carve_all|]. split.
  - apply carve_all. intros view Hin. apply Hsil.
    now apply (Permutation_in view (Permutation_sym Hp)).
  - unfold carved. simpl. rewrite Hv, Hs. apply filter_ext.
    intro r. unfold consistent_all. now apply forallb_permutation.
Qed.

End Composition.

(** ** Beyond the specification: what a seed adds *)

Section SeedOutcomes.
Context {B : Backend}.

(** The three ways a seed can go. *)
Lemma seed_cases (w : World) :
  (List.length (views (self w)) < 2 /\
   initial_reconstruction w = (w, Raise IndexError)) \/
  (exists view0 view1 rest,
      views (self w) = view0 :: view1 :: rest /\
      parallel_axes view0 view1 = true /\
      initial_reconstruction w =
      (fst (print "Both views have paralell vy vectors." w), Return tt)) \/
  (exists view0 view1 rest,
      views (self w) = view0 :: view1 :: rest /\
      parallel_axes view0 view1 = false /\
      initial_reconstruction w =
      (fold_left push (triangulated view0 view1) (with_next_view w 2),
       Return tt)).
Proof.
  destruct (views (self w)) as [|view0 [|view1 rest]] eqn:Hviews.
  - left. split; [simpl; lia|].
    unfold initial_reconstruction, bind, get, lift, index.
    now rewrite Hviews.
  - left. split; [simpl; lia|].
    unfold initial_reconstruction, bind, get, lift, index.
    now rewrite Hviews.
  - right. destruct (parallel_axes view0 view1) eqn:Hguard.
    + left. exists view0, view1, rest. repeat split; trivial.
      apply (seed_guarded w view0 view1 rest); assumption.
    + right. exists view0, view1, rest. repeat split; trivial.
      apply (seed_run w view0 view1 rest); assumption.
Qed.

Lemma accepted_at_most_one d0 d1 p0 p1 :
  List.length (accepted d0 d1 p0 p1) <= 1.
Proof.
  unfold accepted.
  destruct (lstsq _ _) as [[t s]|]; [|simpl; lia].
  destruct (allclose _ _); simpl; lia.
Qed.

Lemma accepted_row_length d0 d1 p0 (l1 : list (Vector3 scalar)) :
  List.length (flat_map (fun p1 => accepted d0 d1 p0 p1) l1)
    <= List.length l1.
Proof.
  induction l1 as [|p1 l1 IH]; simpl; [lia|].
  rewrite length_app. pose proof (accepted_at_most_one d0 d1 p0 p1). lia.
Qed.

Lemma triangulated_length (view0 view1 : View.t scalar) :
  List.length (triangulated view0 view1)
    <= List.length (View.vertices view0) * List.length (View.vertices view1).
Proof.
  unfold triangulated.
  induction (View.vertices view0) as [|p0 l0 IH]; simpl; [lia|].
  rewrite length_app.
  pose proof (accepted_row_length (np_array (View.vy view0))
                (np_array (View.vy view1)) p0 (View.vertices view1)).
  lia.
Qed.

(** X8. With two views or more the seed never raises: whatever the solve
    does on the pairs, its failures included, the method returns. *)
Theorem seed_returns (w : World) :
  2 <= List.length (views (self w)) ->
  snd (initial_reconstruction w) = Return tt.
Proof.
  intro Hlen.
  destruct (seed_cases w)
    as [[Hlt _]|[(v0 & v1 & rest & _ & _ & H)|(v0 & v1 & rest & _ & _ & H)]];
    [lia | now rewrite H | now rewrite H].
Qed.

(** X9. A seed only adds: whatever it answers, the views are unchanged,
    the cloud it leaves is the former cloud with, in front, the objects
    it has just allocated, those at the addresses from the former break
    up to the new one, last allocated first; the objects that existed
    keep their contents, and with views [view0], [view1] in front there
    are at most [len(view0.vertices) * len(view1.vertices)] new objects. *)
Theorem seed_only_adds (w : World) :
  exists n : nat,
    vertices (self (fst (initial_reconstruction w)))
      = rev (seq (brk w) n) ++ vertices (self w) /\
    brk (fst (initial_reconstruction w)) = brk w + n /\
    (forall r, In r (rev (seq (brk w) n)) ->
               brk w <= r < brk (fst (initial_reconstruction w))) /\
    views (self (fst (initial_reconstruction w))) = views (self w) /\
    (forall r, r < brk w ->
               store (fst (initial_reconstruction w)) r = store w r) /\
    (forall view0 view1 rest,
        views (self w) = view0 :: view1 :: rest ->
        n <= List.length (View.vertices view0)
             * List.length (View.vertices view1)).
Proof.
  destruct (seed_cases w)
    as [[_ H]|[(v0 & v1 & rest & _ & _ & H)|(v0 & v1 & rest & Hv & _ & H)]];
    rewrite H; simpl fst.
  - exists 0. simpl. repeat split; auto; try lia; contradiction.
  - exists 0. simpl. repeat split; auto; try lia; contradiction.
  - destruct (fold_push (triangulated v0 v1) (with_next_view w 2))
      as (Hviews & _ & _ & Hb & Hl & _ & Hold).
    exists (List.length (triangulated v0 v1)).
    simpl in *. rewrite Hb.
    split; [assumption|]. split; [reflexivity|]. split.
    { intros r Hr. apply in_rev, in_seq in Hr. lia. }
    split; [assumption|]. split; [assumption|].
    intros view0 view1 rest' E. rewrite Hv in E. inversion E; subst.
    apply triangulated_length.
Qed.

Lemma seed_views (w : World) :
  views (self (fst (initial_reconstruction w))) = views (self w).
Proof.
  destruct (seed_cases w)
    as [[_ H]|[(v0 & v1 & rest & _ & _ & H)|(v0 & v1 & rest & _ & _ & H)]];
    rewrite H; simpl fst; try reflexivity.
  now destruct (fold_push (triangulated v0 v1) (with_next_view w 2))
    as (Hviews & _).
Qed.

Lemma well_formed_push (w : World) (q : Vector3 scalar) :
  well_formed w -> well_formed (push w q).
Proof.
  intros [Hnd Hall]. split; simpl.
  - constructor; [|assumption].
    intro Hin. rewrite Forall_forall in Hall. apply Hall in Hin. lia.
  - constructor; [lia|].
    rewrite Forall_forall in *. intros r Hr. apply Hall in Hr. lia.
Qed.

Lemma well_formed_pushes (qs : list (Vector3 scalar)) :
  forall w : World, well_formed w -> well_formed (fold_left push qs w).
Proof.
  induction qs as [|q qs IH]; intros w Hw; [assumption|].
  simpl. apply IH. now apply well_formed_push.
Qed.

Lemma well_formed_seed (w : World) :
  well_formed w -> well_formed (fst (initial_reconstruction w)).
Proof.
  intro Hw.
  destruct (seed_cases w)
    as [[_ H]|[(v0 & v1 & rest & _ & _ & H)|(v0 & v1 & rest & _ & _ & H)]];
    rewrite H; simpl fst; [assumption | exact Hw |].
  apply well_formed_pushes. exact Hw.
Qed.

Lemma well_formed_step (w : World) :
  well_formed w -> well_formed (fst (next_refinement_step w)).
Proof.
  intros [Hnd Hall].
  destruct (step_cases w) as [H|[H|(view & pp & rest & _ & _ & H)]];
    rewrite H; simpl fst; try (split; assumption).
  split; simpl.
  - now apply NoDup_filter.
  - rewrite Forall_forall in *. intros r Hr.
    apply filter_In in Hr. now apply Hall.
Qed.

(** X10. In every world a driver can reach from a fresh engine, the views
    are those the engine was built with and the vertices are pairwise
    distinct objects, all allocated by the engine. *)
Theorem reachable_well_formed (vs : list (View.t scalar)) (w : World) :
  reachable vs w -> views (self w) = vs /\ well_formed w.
Proof.
  induction 1 as [|w _ [IHv IHw]|w _ [IHv IHw]].
  - split; [reflexivity|]. split; simpl; constructor.
  - split; [|now apply well_formed_seed].
    rewrite seed_views. assumption.
  - split; [|now apply well_formed_step].
    destruct (step_cases w) as [H|[H|(view & pp & rest & _ & _ & H)]];
      rewrite H; simpl; assumption.
Qed.

End SeedOutcomes.

Section SeedTwice.
Context {B : Backend}.

Lemma cloud_after_seed (w : World) view0 view1 rest :
  well_formed w ->
  views (self w) = view0 :: view1 :: rest ->
  parallel_axes view0 view1 = false ->
  cloud (fst (initial_reconstruction w))
    = rev (triangulated view0 view1) ++ cloud w.
Proof.
  intros [_ Hall] Hviews Hguard.
  rewrite (seed_run w view0 view1 rest Hviews Hguard). simpl fst.
  destruct (fold_push (triangulated view0 view1) (with_next_view w 2))
    as (_ & _ & _ & _ & Hl & Hs & Hold).
  simpl in Hl, Hs, Hold. unfold cloud. rewrite Hl, map_app. f_equal.
  - exact Hs.
  - apply map_ext_in. intros r Hr. apply Hold.
    rewrite Forall_forall in Hall. now apply Hall.
Qed.

(** X11. On a world whose vertices are allocated objects, a seed that goes
    through puts the triangulated points in front of the points the cloud
    held, last pair first, and leaves those points as they were: every
    former point is still there and the cloud has grown by the number of
    accepted pairs. *)
Theorem seed_prepends_points (w : World) view0 view1 rest :
  well_formed w ->
  views (self w) = view0 :: view1 :: rest ->
  parallel_axes view0 view1 = false ->
  cloud (fst (initial_reconstruction w))
    = rev (triangulated view0 view1) ++ cloud w /\
  (forall point, In point (cloud w) ->
                 In point (cloud (fst (initial_reconstruction w)))) /\
  List.length (cloud (fst (initial_reconstruction w)))
    = List.length (triangulated view0 view1) + List.length (cloud w).
Proof.
  intros Hw Hviews Hguard.
  pose proof (cloud_after_seed w view0 view1 rest Hw Hviews Hguard) as H.
  split; [exact H|]. rewrite H. split.
  - intros point Hin. apply in_or_app. now right.
  - now rewrite length_app, length_rev.
Qed.

(** X12. The seed does not start from an empty cloud: called twice in a
    row it holds every triangulated point twice, as distinct objects. *)
Theorem seed_twice_duplicates (w : World) view0 view1 rest :
  well_formed w ->
  views (self w) = view0 :: view1 :: rest ->
  parallel_axes view0 view1 = false ->
  cloud (fst (initial_reconstruction (fst (initial_reconstruction w))))
    = rev (triangulated view0 view1) ++ rev (triangulated view0 view1)
      ++ cloud w /\
  NoDup (vertices
           (self (fst (initial_reconstruction
                         (fst (initial_reconstruction w)))))).
Proof.
  intros Hw Hviews Hguard. split.
  - rewrite (cloud_after_seed _ view0 view1 rest).
    + now rewrite (cloud_after_seed w view0 view1 rest).
    + now apply well_formed_seed.
    + now rewrite seed_views.
    + assumption.
  - now apply well_formed_seed, well_formed_seed.
Qed.

End SeedTwice.

(** ** Beyond the specification: the constructor *)

Section LoaderProperties.
Import Loader.
Context {B : Backend} {img E : Type}.
Variable env : Env img E.

Lemma load_views_app (model_name : string) (l1 l2 : list string) :
  forall acc,
    load_views env model_name (l1 ++ l2) acc =
    and_then (load_views env model_name l1 acc)
             (fun views => load_views env model_name l2 views).
Proof.
  induction l1 as [|n l1 IH]; intro acc; simpl; [reflexivity|].
  destruct (selected env model_name n); [|apply IH].
  destruct (build_view env model_name n) as [v|e]; simpl;
    [apply IH | reflexivity].
Qed.

Lemma load_views_built (model_name : string) (names : list string) :
  forall acc views,
    load_views env model_name names acc = Ok views ->
    exists built,
      Forall2 (fun view_dir v => build_view env model_name view_dir = Ok v)
              (filter (selected env model_name) names) built /\
      views = rev built ++ acc.
Proof.
  induction names as [|n names IH]; intros acc views H; simpl in H.
  - exists []. split; [apply Forall2_nil | simpl; congruence].
  - simpl. destruct (selected env model_name n).
    + destruct (build_view env model_name n) as [v|e] eqn:Hv;
        simpl in H; [|discriminate].
      destruct (IH _ _ H) as (built & HF & ->).
      exists (v :: built). split; [now constructor|].
      simpl. now rewrite <- app_assoc.
    + now apply IH.
Qed.

(** X16. When the constructor returns, the engine is fresh (no vertex,
    cursor 0) and its views are those built from the selected entries of
    the listing (the directories whose name starts with [view]), in the
    reverse of the order of the listing. *)
Theorem init_views_reversed (name : string) (w : World) :
  Model_init env name = Ok w ->
  exists names,
    listdir env (model_prefix ++ name)%string = Ok names /\
    Forall2 (fun view_dir v =>
               build_view env (model_prefix ++ name)%string view_dir = Ok v)
            (filter (selected env (model_prefix ++ name)%string) names)
            (rev (views (self w))) /\
    vertices (self w) = [] /\
    next_view (self w) = 0.
Proof.
  unfold Model_init. cbv zeta. intro H.
  destruct (listdir env (model_prefix ++ name)%string) as [names|e];
    cbn [and_then] in H; [|discriminate].
  exists names. split; [reflexivity|].
  destruct (load_views env (model_prefix ++ name)%string names [])
    as [vs|e] eqn:Hl; cbn [and_then] in H; [|discriminate].
  inversion H; subst w. cbn [init self views vertices next_view].
  destruct (load_views_built _ _ _ _ Hl) as (built & HF & ->).
  rewrite app_nil_r, rev_involutive. auto.
Qed.

(** X17. The entries of the listing that are not selected, files and
    directories of another name, play no part: the loop gives what it
    gives on the selected entries alone, errors included. *)
Theorem load_skips_unselected (model_name : string)
    (names : list string) :
  forall acc,
    load_views env model_name names acc =
    load_views env model_name
               (filter (selected env model_name) names) acc.
Proof.
  induction names as [|n names IH]; intro acc; simpl; [reflexivity|].
  destruct (selected env model_name n) eqn:Hs; simpl; [|apply IH].
  rewrite Hs.
  destruct (build_view env model_name n) as [v|e]; simpl;
    [apply IH | reflexivity].
Qed.

(** X18. The constructor stops at the first selected entry that cannot be
    built and raises what that entry raised, whatever follows in the
    listing. *)
Theorem load_first_failure (model_name : string)
    (before after : list string) (view_dir : string) (acc views : list (View.t scalar)) (e : error E) :
  load_views env model_name before acc = Ok views ->
  selected env model_name view_dir = true ->
  build_view env model_name view_dir = Err e ->
  load_views env model_name (before ++ view_dir :: after) acc = Err e.
Proof.
  intros Hb Hs He. rewrite load_views_app, Hb. simpl.
  now rewrite Hs, He.
Qed.

(** X19. The loop succeeds exactly when every selected entry can be
    built, and it then holds one view more per selected entry. *)
Theorem load_succeeds_iff (model_name : string) (names : list string)
    (acc : list (View.t scalar)) :
  ((exists views, load_views env model_name names acc = Ok views) <->
   Forall (fun view_dir =>
             exists v, build_view env model_name view_dir = Ok v)
          (filter (selected env model_name) names)) /\
  (forall views,
      load_views env model_name names acc = Ok views ->
      List.length views =
      List.length (filter (selected env model_name) names)
      + List.length acc).
Proof.
  split; [split|].
  - intros (views & H). apply load_views_built in H.
    destruct H as (built & HF & _).
    induction HF as [|n v l l' Hn _ IH]; constructor; eauto.
  - revert acc. induction names as [|n names IH]; intros acc HF; simpl.
    + eauto.
    + simpl in HF. destruct (selected env model_name n).
      * inversion HF as [|? ? (v & Hv) HF']; subst.
        rewrite Hv. simpl. now apply IH.
      * now apply IH.
  - intros views H. apply load_views_built in H.
    destruct H as (built & HF & ->).
    rewrite length_app, length_rev.
    apply Forall2_length in HF. lia.
Qed.

End LoaderProperties.

(** ** The further theorems at sample scenes *)

Section MoreSamples.
Import Scene Gallery.
Local Open Scope Q_scope.

(** From the directory to the carved cloud: the constructor loads the two
    views in the reverse of the listing, and the seed finds the four
    corners of the square. *)
Example square_from_disk :
  Loader.Model_init Disk.env "square"
    = Loader.Ok (engine [Disk.side_view; Disk.front_view]) /\
  List.length (cloud (seed (engine [Disk.side_view; Disk.front_view]))) = 4%nat.
Proof. split; reflexivity. Qed.

Lemma blank_view_blocks_witness :
  calls 5 (seed blank_third) = seed blank_third /\
  next_refinement_step (calls 5 (seed blank_third))
    = (seed blank_third, Raise IndexError).
Proof.
  apply (blank_view_blocks (seed blank_third) (top [])); reflexivity.
Defined.

Lemma steps_compose_witness :
  carve 1 (seed square) =
  Some (with_next_view
          (with_vertices (seed square)
             (filter (fun r => consistent_all
                                 (firstn 1 (pending (seed square)))
                                 (store (seed square) r))
                     (vertices (self (seed square)))))
          (next_view (self (seed square)) + 1)) /\
  cloud (calls 1 (seed square)) =
  filter (consistent_all (firstn 1 (pending (seed square))))
         (cloud (seed square)).
Proof.
  apply (steps_compose 1 (seed square)).
  - vm_compute. apply le_n.
  - intros view Hin. vm_compute in Hin. destruct Hin as [<-|[]].
    discriminate.
Defined.

Lemma driver_reaches_carved_witness :
  carve (List.length (pending (seed one_order))) (seed one_order)
    = Some (carved (seed one_order)) /\
  forall m : nat,
    calls (List.length (pending (seed one_order)) + m) (seed one_order)
      = carved (seed one_order) /\
    next_refinement_step
      (calls (List.length (pending (seed one_order)) + m) (seed one_order))
      = (carved (seed one_order), Return false).
Proof.
  apply (driver_reaches_carved (seed one_order)).
  intros view Hin. vm_compute in Hin.
  destruct Hin as [<-|[<-|[]]]; discriminate.
Defined.

Lemma carving_order_irrelevant_witness :
  carve (List.length (pending (seed one_order))) (seed one_order)
    = Some (carved (seed one_order)) /\
  carve (List.length (pending (seed other_order))) (seed other_order)
    = Some (carved (seed other_order)) /\
  vertices (self (carved (seed one_order)))
    = vertices (self (carved (seed other_order))).
Proof.
  apply (carving_order_irrelevant (seed one_order) (seed other_order)).
  - reflexivity.
  - reflexivity.
  - apply perm_swap.
  - intros view Hin. vm_compute in Hin.
    destruct Hin as [<-|[<-|[]]]; discriminate.
Defined.

Lemma seed_returns_witness :
  snd (initial_reconstruction square) = Return tt.
Proof.
  apply (seed_returns square). vm_compute. apply le_S, le_n.
Defined.

Lemma reachable_well_formed_witness :
  views (self (step (seed square))) = views (self square) /\
  well_formed (step (seed square)).
Proof.
  apply (reachable_well_formed (views (self square)) (step (seed square))).
  apply reach_step, reach_seed, reach_init.
Defined.

Lemma seed_prepends_points_witness :
  cloud (fst (initial_reconstruction (seed square)))
    = (rev (triangulated Disk.front_view Disk.side_view)
       ++ cloud (seed square))%list /\
  (forall point, In point (cloud (seed square)) ->
                 In point (cloud (fst (initial_reconstruction
                                         (seed square))))) /\
  List.length (cloud (fst (initial_reconstruction (seed square))))
    = (List.length (triangulated Disk.front_view Disk.side_view)
       + List.length (cloud (seed square)))%nat.
Proof.
  apply (seed_prepends_points (seed square) Disk.front_view Disk.side_view
           [top [V 0 0 1; V 1 0 1; V 0 1 1]]).
  - split; vm_compute; repeat constructor; simpl; intuition discriminate.
  - reflexivity.
  - reflexivity.
Defined.

Lemma seed_twice_duplicates_witness :
  cloud (fst (initial_reconstruction (fst (initial_reconstruction square))))
    = (rev (triangulated Disk.front_view Disk.side_view)
       ++ rev (triangulated Disk.front_view Disk.side_view)
       ++ cloud square)%list /\
  NoDup (vertices
           (self (fst (initial_reconstruction
                         (fst (initial_reconstruction square)))))).
Proof.
  apply (seed_twice_duplicates square Disk.front_view Disk.side_view
           [top [V 0 0 1; V 1 0 1; V 0 1 1]]).
  - split; constructor.
  - reflexivity.
  - reflexivity.
Defined.

End MoreSamples.

Section ExactSamples.
Import Scene Gallery.
Local Open Scope Q_scope.

Lemma init_views_reversed_witness :
  exists names,
    Loader.listdir Disk.env (Loader.model_prefix ++ "square")%string
      = Loader.Ok names /\
    Forall2 (fun view_dir v =>
               Loader.build_view Disk.env
                 (Loader.model_prefix ++ "square")%string view_dir
               = Loader.Ok v)
            (filter (Loader.selected Disk.env
                       (Loader.model_prefix ++ "square")%string) names)
            (rev (views (self (engine [Disk.side_view; Disk.front_view]))))
    /\
    vertices (self (engine [Disk.side_view; Disk.front_view])) = [] /\
    next_view (self (engine [Disk.side_view; Disk.front_view])) = 0%nat.
Proof.
  apply (init_views_reversed Disk.env "square"
           (engine [Disk.side_view; Disk.front_view])).
  reflexivity.
Defined.

Lemma load_first_failure_witness :
  Loader.load_views Disk.env "models/model_broken"
    (["view_front"%string] ++ "view_lost"%string :: [])%list []
  = Loader.Err (Loader.Foreign "FileNotFoundError"%string).
Proof.
  apply (load_first_failure Disk.env "models/model_broken"
           ["view_front"%string] [] "view_lost" [] [front []]);
    reflexivity.
Defined.

End ExactSamples.
